(** * Sam's Place accounting app: running balances over a SQLite table

    A shallow embedding of [samplace_final.py].  The script keeps one SQLite
    table [transactions] and, after every insert, update or delete coming
    from the Streamlit forms, re-reads the table ordered by [trans_date] and
    rewrites the [balance] column as a left-to-right running total.

    - [Py]  : the few Python values the script computes with: [str] as a
              sequence of Unicode code points, [datetime.date] and its ISO
              rendering, [float] as IEEE-754 binary64 ([PrimFloat.float]),
              and the builtin exceptions it can meet.
    - [Sql] : the table, the five SQL statements the script executes, and
              the [ORDER BY trans_date ASC] scan.
    - [Xl]  : the logical content of the workbook written by
              [DataFrame.to_excel].
    - top level: the script's own functions and form handlers, in a small
              state-and-exception monad over the table. *)

From Stdlib Require Import ZArith NArith List String Ascii Bool Lia.
From Stdlib Require Import Permutation Sorted PrimFloat.
Import ListNotations.

Set Warnings "-inexact-float".

(* ------------------------------------------------------------------ *)
(** ** Python values *)

Module Py.

(** A Python [str] is a sequence of code points. *)
Definition str := list N.

(** A literal of the source, read code point by code point (ASCII). *)
Definition lit (s : string) : str :=
  map N_of_ascii (list_ascii_of_string s).

(** [str.isspace] on one code point, as CPython's [_PyUnicode_IsWhitespace]. *)
Definition isspace (c : N) : bool :=
  ((9 <=? c) && (c <=? 13) ||
   (28 <=? c) && (c <=? 32) ||
   (c =? 133) || (c =? 160) || (c =? 5760) ||
   (8192 <=? c) && (c <=? 8202) ||
   (c =? 8232) || (c =? 8233) || (c =? 8239) || (c =? 8287) ||
   (c =? 12288))%N.

Fixpoint lstrip (s : str) : str :=
  match s with
  | [] => []
  | c :: t => if isspace c then lstrip t else s
  end.

Definition rstrip (s : str) : str := rev (lstrip (rev s)).

(** [s.strip()] *)
Definition strip (s : str) : str := rstrip (lstrip s).

(** Truth value of a [str]: only the empty string is false. *)
Definition truthy (s : str) : bool :=
  match s with [] => false | _ :: _ => true end.

(** [datetime.date] *)
Record date := mkdate { year : Z; month : Z; day : Z }.

(** [MINYEAR <= year <= MAXYEAR], [1 <= month <= 12], [1 <= day <= 31]:
    what the constructor of [date] enforces (days per month aside). *)
Definition date_ok (d : date) : bool :=
  ((1 <=? year d) && (year d <=? 9999) &&
   (1 <=? month d) && (month d <=? 12) &&
   (1 <=? day d) && (day d <=? 31))%Z.

Definition digit (n : Z) : N := (48 + Z.to_N (n mod 10))%N.

(** [str(d)], i.e. [d.isoformat()]: ["%04d-%02d-%02d"]. *)
Definition str_of_date (d : date) : str :=
  [ digit (year d / 1000); digit (year d / 100); digit (year d / 10);
    digit (year d); 45%N;
    digit (month d / 10); digit (month d); 45%N;
    digit (day d / 10); digit (day d) ].

(** Calendar order on dates. *)
Definition date_compare (a b : date) : comparison :=
  match (year a ?= year b)%Z with
  | Eq => match (month a ?= month b)%Z with
          | Eq => (day a ?= day b)%Z
          | c => c
          end
  | c => c
  end.

(** The builtin [sum]: starts from the integer [0] and adds left to right. *)
Definition sum (l : list float) : float :=
  fold_left PrimFloat.add l 0%float.

(** Exceptions.  [IndexError] is what [.iloc] raises out of range and
    [ValueError] what a column assignment of the wrong length raises;
    [ValidationError] and [NotFoundError] are the two error kinds the
    specification names, which no statement of the script raises. *)
Inductive exn := IndexError | ValueError | ValidationError | NotFoundError.

End Py.

(* ------------------------------------------------------------------ *)
(** ** The SQLite table *)

Module Sql.

(** One row of
    [transactions(id INTEGER PRIMARY KEY AUTOINCREMENT, trans_date TEXT,
     description TEXT, income REAL, expenses REAL, balance REAL)].
    The fields are in the column order of the [CREATE TABLE] statement. *)
Record row := mkrow {
  id : Z;
  trans_date : Py.str;
  description : Py.str;
  income : float;
  expenses : float;
  balance : float
}.

(** The database: the rows of the table in rowid order (the order of a
    table scan) and the [sqlite_sequence] counter kept for AUTOINCREMENT,
    the largest rowid ever handed out.  Failures of the engine itself
    (I/O, a full disk, an exhausted rowid space) are outside the model. *)
Record store := mkstore { table : list row; seq : Z }.

Definition empty : store := {| table := []; seq := 0 |}.

(** The PRIMARY KEY invariant, with the scan order: rowids are positive and
    strictly increasing along the table. *)
Fixpoint ids_ascending_from (lo : Z) (l : list row) : bool :=
  match l with
  | [] => true
  | r :: t => (lo <? id r)%Z && ids_ascending_from (id r) t
  end.

Definition wf (s : store) : bool := ids_ascending_from 0 (table s).

(** Comparison of two TEXT values under the BINARY collation: [memcmp] on
    the UTF-8 encoding and then the length, which on code points is the
    lexicographic order. *)
Fixpoint text_compare (a b : Py.str) : comparison :=
  match a, b with
  | [], [] => Eq
  | [], _ :: _ => Lt
  | _ :: _, [] => Gt
  | x :: a', y :: b' =>
      match (x ?= y)%N with
      | Eq => text_compare a' b'
      | c => c
      end
  end.

Definition text_leb (a b : Py.str) : bool :=
  match text_compare a b with Gt => false | _ => true end.

(** [ORDER BY trans_date ASC] over a table scan.  SQLite's sorter keeps
    rows with equal keys in the order the scan fed them; the model is the
    stable insertion sort, which is the only stable sort there is. *)
Fixpoint insert_by_date (r : row) (l : list row) : list row :=
  match l with
  | [] => [r]
  | x :: t =>
      if text_leb (trans_date r) (trans_date x) then r :: l
      else x :: insert_by_date r t
  end.

Fixpoint order_by_trans_date (l : list row) : list row :=
  match l with
  | [] => []
  | r :: t => insert_by_date r (order_by_trans_date t)
  end.

(** [SELECT * FROM transactions ORDER BY trans_date ASC] *)
Definition select_all_ordered (s : store) : list row :=
  order_by_trans_date (table s).

Definition max_id (l : list row) : Z :=
  fold_right (fun r m => Z.max (id r) m) 0%Z l.

(** [INSERT INTO transactions (trans_date, description, income, expenses,
    balance) VALUES (?, ?, ?, ?, ?)]: AUTOINCREMENT takes one more than the
    larger of the largest rowid in the table and the [sqlite_sequence]
    counter. *)
Definition insert (d desc : Py.str) (inc exp bal : float) (s : store)
  : store :=
  let new_id := (Z.max (seq s) (max_id (table s)) + 1)%Z in
  {| table := table s ++ [mkrow new_id d desc inc exp bal];
     seq := new_id |}.

(** [DELETE FROM transactions WHERE id = ?] *)
Definition delete (row_id : Z) (s : store) : store :=
  {| table := filter (fun r => negb (id r =? row_id)%Z) (table s);
     seq := seq s |}.

(** [UPDATE transactions SET trans_date = ?, description = ?, income = ?,
    expenses = ? WHERE id = ?] *)
Definition update (d desc : Py.str) (inc exp : float) (row_id : Z)
  (s : store) : store :=
  {| table :=
       map (fun r => if (id r =? row_id)%Z
                     then mkrow (id r) d desc inc exp (balance r)
                     else r) (table s);
     seq := seq s |}.

(** [UPDATE transactions SET balance = ? WHERE id = ?] *)
Definition update_balance (bal : float) (row_id : Z) (s : store) : store :=
  {| table :=
       map (fun r => if (id r =? row_id)%Z
                     then mkrow (id r) (trans_date r) (description r)
                                (income r) (expenses r) bal
                     else r) (table s);
     seq := seq s |}.

End Sql.

Import Sql.

(* ------------------------------------------------------------------ *)
(** ** Statements that read and write the table, and may raise *)

(** How a run of Python code ends: it returns a value or raises; either way
    the table is left in some state. *)
Inductive outcome (A : Type) :=
| Returned (a : A) (s : store)
| Raised (e : Py.exn) (s : store).
Arguments Returned {A} a s.
Arguments Raised {A} e s.

Definition M (A : Type) : Type := store -> outcome A.

Definition ret {A} (a : A) : M A := fun s => Returned a s.

Definition bind {A B} (m : M A) (k : A -> M B) : M B :=
  fun s => match m s with
           | Returned a s' => k a s'
           | Raised e s' => Raised e s'
           end.

Definition raise {A} (e : Py.exn) : M A := fun s => Raised e s.

(** [c.execute(stmt)] for a statement that writes. *)
Definition execute (stmt : store -> store) : M unit :=
  fun s => Returned tt (stmt s).

(** [conn.commit()]: the script has a single connection, which already sees
    its own writes. *)
Definition commit : M unit := ret tt.

Notation "x <- m ;; k" := (bind m (fun x => k))
  (at level 61, m at next level, right associativity).
Notation "m ;; k" := (bind m (fun _ => k))
  (at level 61, right associativity).

(** [for x in l: body(x)] *)
Fixpoint for_each {A} (l : list A) (body : A -> M unit) : M unit :=
  match l with
  | [] => ret tt
  | x :: t => body x ;; for_each t body
  end.

(* ------------------------------------------------------------------ *)
(** ** The script's helper functions *)

(** A [DataFrame] read from the table: its rows in order, each with the six
    columns of the table. *)
Definition DataFrame := list row.

Definition fetch_transactions : M DataFrame :=
  fun s => Returned (select_all_ordered s) s.

(** The first loop of [recalc_balance]:
    [balance = 0; balances = []] and then, for each row,
    [balance += row["income"] - row["expenses"]; balances.append(balance)]. *)
Definition running_balances (df : DataFrame) : list float :=
  snd (fold_left
         (fun (st : float * list float) (r : row) =>
            let balance := (fst st + (income r - expenses r))%float in
            (balance, snd st ++ [balance]))
         df (0%float, [])).

Definition with_balance (r : row) (b : float) : row :=
  mkrow (id r) (trans_date r) (description r) (income r) (expenses r) b.

(** [df["balance"] = balances]: the column keeps its place; a list of the
    wrong length is a [ValueError]. *)
Fixpoint set_balance (df : DataFrame) (balances : list float)
  : option DataFrame :=
  match df, balances with
  | [], [] => Some []
  | r :: df', b :: bs =>
      match set_balance df' bs with
      | Some out => Some (with_balance r b :: out)
      | None => None
      end
  | _, _ => None
  end.

Definition recalc_balance (df : DataFrame) : M DataFrame :=
  let balances := running_balances df in
  match set_balance df balances with
  | None => raise Py.ValueError
  | Some df =>
      for_each df (fun r => execute (update_balance (balance r) (id r))) ;;
      commit ;;
      ret df
  end.

(** [df.empty] *)
Definition df_empty (df : DataFrame) : bool :=
  match df with [] => true | _ :: _ => false end.

(** [column.iloc[-1]] *)
Definition iloc_last (column : list float) : M float :=
  match rev column with
  | b :: _ => ret b
  | [] => raise Py.IndexError
  end.

(** [add_transaction]: the provisional balance is read off the last row of
    a fresh fetch (the condition of the conditional expression fetches
    first, its left arm fetches again), then the row is inserted. *)
Definition add_transaction (trans_date desc : Py.str) (income expenses : float)
  : M unit :=
  probe <- fetch_transactions ;;
  last_balance <-
    (if negb (df_empty probe)
     then (df <- fetch_transactions ;; iloc_last (map balance df))
     else ret 0%float) ;;
  let new_balance := (last_balance + income - expenses)%float in
  execute (insert trans_date desc income expenses new_balance) ;;
  commit.

Definition delete_transaction (row_id : Z) : M unit :=
  execute (delete row_id) ;;
  commit.

Definition update_transaction (row_id : Z) (trans_date desc : Py.str)
  (income expenses : float) : M unit :=
  execute (update trans_date desc income expenses row_id) ;;
  commit.

(* ------------------------------------------------------------------ *)
(** ** The workbook written by [DataFrame.to_excel] *)

Module Xl.

Inductive cell :=
| Int (z : Z)
| Text (s : Py.str)
| Real (f : float).

Record sheet := mksheet { name : Py.str; rows : list (list cell) }.

(** The logical content of an .xlsx file: its sheets, each a grid of
    cells.  The zip container and the XML inside it are the writer
    library's business. *)
Definition workbook := list sheet.

(** [io.BytesIO]: what has been written, and whether the stream position
    is back at the start or after the last byte written. *)
Inductive where_ := AtStart | AtEnd.
Record BytesIO := mkbuf { written : workbook; position : where_ }.

End Xl.

(** The columns of a frame read with [SELECT *], in table order. *)
Definition columns : list Py.str :=
  map Py.lit ["id"; "trans_date"; "description"; "income"; "expenses";
              "balance"]%string.

Definition cells (r : row) : list Xl.cell :=
  [ Xl.Int (id r); Xl.Text (trans_date r); Xl.Text (description r);
    Xl.Real (income r); Xl.Real (expenses r); Xl.Real (balance r) ].

(** Data rows, each led by its position in the frame when the index is
    written. *)
Fixpoint body_rows (index : bool) (i : Z) (df : DataFrame)
  : list (list Xl.cell) :=
  match df with
  | [] => []
  | r :: t =>
      ((if index then [Xl.Int i] else []) ++ cells r)
        :: body_rows index (i + 1) t
  end.

(** [df.to_excel(buf, index=..., sheet_name=...)] with the default
    [header=True]: one sheet, the column names and then the rows. *)
Definition to_excel (df : DataFrame) (index : bool) (sheet_name : Py.str)
  : Xl.workbook :=
  let header := (if index then [Xl.Text []] else []) ++ map Xl.Text columns in
  [ Xl.mksheet sheet_name (header :: body_rows index 0 df) ].

Definition export_to_excel (df : DataFrame) : Xl.BytesIO :=
  let output :=
    Xl.mkbuf (to_excel df false (Py.lit "Transactions")) Xl.AtEnd in
  (* output.seek(0) *)
  Xl.mkbuf (Xl.written output) Xl.AtStart.

(* ------------------------------------------------------------------ *)
(** ** The form handlers *)

(** What a handler shows: [st.warning] or [st.success], with the text of
    the message after its leading pictograph. *)
Inductive notice :=
| warning (text : string)
| success (text : string).

(** [df = fetch_transactions(); df = recalc_balance(df)], the pass that
    follows every mutation. *)
Definition refetch_and_recalc : M DataFrame :=
  df <- fetch_transactions ;;
  recalc_balance df.

(** [income == 0 and expenses == 0] *)
Definition both_zero (income expenses : float) : bool :=
  PrimFloat.eqb income 0 && PrimFloat.eqb expenses 0.

(** The [if submit:] block of the add form.  [df] is the frame fetched at
    the top of the script run. *)
Definition submit_add_form (trans_date : Py.date) (desc : Py.str)
  (income expenses : float) (df : DataFrame) : M (DataFrame * notice) :=
  if negb (Py.truthy (Py.strip desc)) then
    ret (df, warning "Please enter a description.")
  else if both_zero income expenses then
    ret (df, warning "Either Income or Expenses must be greater than 0.")
  else
    add_transaction (Py.str_of_date trans_date) desc income expenses ;;
    df <- refetch_and_recalc ;;
    ret (df, success "Transaction added successfully!").

(** [row_data = df[df["id"] == row_id].iloc[0]] *)
Definition row_data (df : DataFrame) (row_id : Z) : M row :=
  match filter (fun r => (id r =? row_id)%Z) df with
  | r :: _ => ret r
  | [] => raise Py.IndexError
  end.

(** The [if save_edit:] block.  It sits under [if not df.empty:], after
    the selector has given [row_id] and [row_data] has been looked up. *)
Definition save_edit_form (row_id : Z) (new_date : Py.date)
  (new_desc : Py.str) (new_income new_expenses : float) (df : DataFrame)
  : M (DataFrame * option notice) :=
  if df_empty df then ret (df, None)
  else
    row_data df row_id ;;
    if negb (Py.truthy (Py.strip new_desc)) then
      ret (df, Some (warning "Please enter a description."))
    else if both_zero new_income new_expenses then
      ret (df, Some (warning
                       "Either Income or Expenses must be greater than 0."))
    else
      update_transaction row_id (Py.str_of_date new_date) new_desc
                         new_income new_expenses ;;
      df <- refetch_and_recalc ;;
      ret (df, Some (success "Transaction updated successfully!")).

(** The delete button, under the same [if not df.empty:] and after the
    same lookup. *)
Definition delete_button (row_id : Z) (df : DataFrame)
  : M (DataFrame * option notice) :=
  if df_empty df then ret (df, None)
  else
    row_data df row_id ;;
    delete_transaction row_id ;;
    df <- refetch_and_recalc ;;
    ret (df, Some (success "Transaction deleted successfully!")).

(* ------------------------------------------------------------------ *)
(** ** Vocabulary of the statements below *)

(** The running total continued from [b]:
    [balance[i] = balance[i-1] + (income[i] - expenses[i])]. *)
Fixpoint running_from (b : float) (df : DataFrame) : list float :=
  match df with
  | [] => []
  | r :: t =>
      let b' := (b + (income r - expenses r))%float in
      b' :: running_from b' t
  end.

(** Everything in a row but its balance. *)
Definition frame (r : row) : Z * Py.str * Py.str * float * float :=
  (id r, trans_date r, description r, income r, expenses r).

(** The order of the fetched sequence: earlier text date first and, on
    equal dates, smaller rowid first. *)
Definition fetched_before (a b : row) : Prop :=
  text_compare (trans_date a) (trans_date b) = Lt \/
  (trans_date a = trans_date b /\ (id a < id b)%Z).

(** The order of the date column alone. *)
Definition date_le (a b : row) : Prop :=
  text_leb (trans_date a) (trans_date b) = true.

Definition has_id (row_id : Z) (s : store) : bool :=
  existsb (fun r => (id r =? row_id)%Z) (table s).

(** What [recalc_balance] does to a frame: every row gets the running total
    up to and including itself, continued from [b]. *)
Fixpoint recalc_rows (b : float) (df : DataFrame) : DataFrame :=
  match df with
  | [] => []
  | r :: t =>
      let b' := (b + (income r - expenses r))%float in
      with_balance r b' :: recalc_rows b' t
  end.

(** What the second loop of [recalc_balance] does to the table: one
    [UPDATE ... SET balance] for each row of the frame, in order. *)
Definition persist (df : DataFrame) (s : store) : store :=
  fold_left (fun s r => update_balance (balance r) (id r) s) df s.

(** The balance the table ends with for [row_id] after [persist df]: that of
    the last row of [df] carrying this id, or [b] when there is none. *)
Definition last_balance_for (row_id : Z) (df : DataFrame) (b : float)
  : float :=
  fold_left (fun b r => if (id r =? row_id)%Z then balance r else b) df b.

(** The running total reached after the rows of [df], starting from [b]. *)
Definition balance_after (b : float) (df : DataFrame) : float :=
  fold_left (fun b r => (b + (income r - expenses r))%float) df b.

(** The two amounts of a row, all that the running total reads. *)
Definition amounts (r : row) : float * float := (income r, expenses r).

(** The running totals of a sequence of (income, expenses) pairs. *)
Fixpoint totals (b : float) (l : list (float * float)) : list float :=
  match l with
  | [] => []
  | (inc, exp) :: t =>
      let b' := (b + (inc - exp))%float in
      b' :: totals b' t
  end.

(** The closed form of the specification for row [i]:
    [sum(income[0..i]) - sum(expenses[0..i])]. *)
Definition sum_form (df : DataFrame) (i : nat) : float :=
  (Py.sum (map income (firstn (S i) df))
   - Py.sum (map expenses (firstn (S i) df)))%float.

(** The exception a run ended with, if it raised. *)
Definition failed_with {A} (o : outcome A) : option Py.exn :=
  match o with
  | Returned _ _ => None
  | Raised e _ => Some e
  end.

(** The table a run ended with. *)
Definition final_store {A} (o : outcome A) : store :=
  match o with
  | Returned _ s => s
  | Raised _ s => s
  end.

(** Two sales-and-refund rows entered through the add form:
    0.1 in on the first day, 0.2 in and 0.3 out on the second. *)
Definition two_rows : store :=
  final_store
    (submit_add_form (Py.mkdate 2024 1 2) (Py.lit "Refund") 0.2 0.3 []
       (final_store
          (submit_add_form (Py.mkdate 2024 1 1) (Py.lit "Sale") 0.1 0 []
             empty))).

(** Comparison by a first key and then a second. *)
Definition lex (c1 c2 : comparison) : comparison :=
  match c1 with Eq => c2 | _ => c1 end.

(** Three sales entered through the add form on three consecutive days:
    0.1, 0.2 and 0.3. *)
Definition three_sales : store :=
  final_store
    (submit_add_form (Py.mkdate 2024 1 3) (Py.lit "Sale") 0.3 0 []
       (final_store
          (submit_add_form (Py.mkdate 2024 1 2) (Py.lit "Sale") 0.2 0 []
             (final_store
                (submit_add_form (Py.mkdate 2024 1 1) (Py.lit "Sale") 0.1 0 []
                   empty))))).

(** The frame a handler run ended with. *)
Definition shown {N} (o : outcome (DataFrame * N)) : DataFrame :=
  match o with
  | Returned (df, _) _ => df
  | Raised _ _ => []
  end.

(** The message a handler run ended with. *)
Definition said {N} (o : outcome (DataFrame * N)) : option N :=
  match o with
  | Returned (_, n) _ => Some n
  | Raised _ _ => None
  end.

(** The scenario of the specification, one form action after the other,
    each on the frame and the table the one before it left. *)
Definition scenario_step1 :=
  submit_add_form (Py.mkdate 2024 1 1) (Py.lit "Opening") 100 0 [] empty.
Definition scenario_step2 :=
  submit_add_form (Py.mkdate 2024 1 2) (Py.lit "Rent") 0 40
    (shown scenario_step1) (final_store scenario_step1).
Definition scenario_step3 :=
  save_edit_form 1 (Py.mkdate 2024 1 1) (Py.lit "Opening") 200 0
    (shown scenario_step2) (final_store scenario_step2).
Definition scenario_step4 :=
  delete_button 2 (shown scenario_step3) (final_store scenario_step3).

(** What the delete button does to the table: the DELETE and then the
    pass. *)
Definition delete_and_recalc (row_id : Z) : M DataFrame :=
  delete_transaction row_id ;;
  refetch_and_recalc.

(** Three entries made through the add form, the second dated before the
    other two, which share a date. *)
Definition tied_dates : store :=
  final_store
    (submit_add_form (Py.mkdate 2024 1 2) (Py.lit "Second") 20 0 []
       (final_store
          (submit_add_form (Py.mkdate 2024 1 1) (Py.lit "Early") 5 0 []
             (final_store
                (submit_add_form (Py.mkdate 2024 1 2) (Py.lit "First") 10 0 []
                   empty))))).

(* ------------------------------------------------------------------ *)
(** ** The selector, the summary and one run of the script *)

Module Txt.

(** [s.split(sep)] for a separator of one character: the pieces between
    the separators, at least one. *)
Fixpoint split (sep : N) (s : Py.str) : list Py.str :=
  match s with
  | [] => [[]]
  | c :: t =>
      if (c =? sep)%N then [] :: split sep t
      else match split sep t with
           | p :: ps => (c :: p) :: ps
           | [] => [[c]]
           end
  end.

(** The decimal digits of [n >= 0] in front of [acc], most significant
    first; [fuel] bounds the number of digits after the first. *)
Fixpoint digits (fuel : nat) (n : Z) (acc : Py.str) : Py.str :=
  match fuel with
  | O => Py.digit n :: acc
  | S f =>
      if (n <? 10)%Z then Py.digit n :: acc
      else digits f (n / 10) (Py.digit n :: acc)
  end.

(** [str(z)] for an integer, which is also what an f-string makes of it. *)
Definition of_int (z : Z) : Py.str :=
  if (z <? 0)%Z
  then 45%N :: digits (Z.to_nat (Z.log2 (- z))) (- z) []
  else digits (Z.to_nat (Z.log2 z)) z [].

Definition digit_value (c : N) : option Z :=
  if ((48 <=? c) && (c <=? 57))%N then Some (Z.of_N c - 48)%Z else None.

(** Digits, with single underscores allowed between two of them. *)
Fixpoint parse_digits (acc : Z) (after_digit : bool) (s : Py.str)
  : option Z :=
  match s with
  | [] => if after_digit then Some acc else None
  | c :: t =>
      match digit_value c with
      | Some d => parse_digits (acc * 10 + d) true t
      | None =>
          if (c =? 95)%N && after_digit then parse_digits acc false t
          else None
      end
  end.

(** [int(s)] in base 10, [None] standing for its [ValueError]: blanks
    around, an optional sign, then the digits.  Decimal digits outside
    ASCII, which Python reads too, are not covered: the model turns them
    down. *)
Definition int_of (s : Py.str) : option Z :=
  match Py.strip s with
  | 45%N :: t => option_map Z.opp (parse_digits 0 false t)
  | 43%N :: t => parse_digits 0 false t
  | t => parse_digits 0 false t
  end.

End Txt.

(** [int(s)] *)
Definition py_int (s : Py.str) : M Z :=
  match Txt.int_of s with
  | Some z => ret z
  | None => raise Py.ValueError
  end.

(** [pieces[0]] *)
Definition first_piece (pieces : list Py.str) : M Py.str :=
  match pieces with
  | p :: _ => ret p
  | [] => raise Py.IndexError
  end.

(** One entry of the selector:
    [f"{id}: {trans_date} | {description} | Income: {income} | Expenses:
    {expenses}"].  How an f-string prints a float is left to [float_str]. *)
Definition option_label (float_str : float -> Py.str) (r : row) : Py.str :=
  Txt.of_int (id r) ++ Py.lit ": " ++ trans_date r ++ Py.lit " | "
    ++ description r ++ Py.lit " | Income: " ++ float_str (income r)
    ++ Py.lit " | Expenses: " ++ float_str (expenses r).

Definition selector_options (float_str : float -> Py.str) (df : DataFrame)
  : list Py.str :=
  map (option_label float_str) df.

(** [row_id = int(selected.split(":")[0])] *)
Definition selected_row_id (selected : Py.str) : M Z :=
  piece <- first_piece (Txt.split 58 selected) ;;
  py_int piece.

(** [df["balance"].iloc[-1]] if the frame has rows, else [0.0]: the
    "Current Balance" of the summary panel. *)
Definition summary_balance (df : DataFrame) : M float :=
  if negb (df_empty df) then iloc_last (map balance df) else ret 0%float.

(** The body of [if save_edit:] and of the delete button, once the frame is
    known not to be empty and the selected row has been looked up. *)
Definition save_edit_block (row_id : Z) (new_date : Py.date)
  (new_desc : Py.str) (new_income new_expenses : float) (df : DataFrame)
  : M (DataFrame * option notice) :=
  if negb (Py.truthy (Py.strip new_desc)) then
    ret (df, Some (warning "Please enter a description."))
  else if both_zero new_income new_expenses then
    ret (df, Some (warning
                     "Either Income or Expenses must be greater than 0."))
  else
    update_transaction row_id (Py.str_of_date new_date) new_desc
                       new_income new_expenses ;;
    df <- refetch_and_recalc ;;
    ret (df, Some (success "Transaction updated successfully!")).

Definition delete_block (row_id : Z) : M (DataFrame * option notice) :=
  delete_transaction row_id ;;
  df <- refetch_and_recalc ;;
  ret (df, Some (success "Transaction deleted successfully!")).

(** What the widgets hand to one run of the script: the fields and the
    submit button of the add form, the entry chosen in the selector, the
    fields and the save button of the edit form, and the delete button. *)
Record widgets := mkwidgets {
  add_date : Py.date;
  add_desc : Py.str;
  add_income : float;
  add_expenses : float;
  submit : bool;
  selected : Py.str;
  edit_date : Py.date;
  edit_desc : Py.str;
  edit_income : float;
  edit_expenses : float;
  save_edit : bool;
  delete_clicked : bool
}.

(** What one run puts on the page: the current balance of the summary
    panel, the messages in the order they appear, the history table (or
    [None] for "No transactions recorded yet."), the file behind the
    download button when there is one, and the entries of the selector.
    The two totals of the summary panel are not part of the model. *)
Record page := mkpage {
  current_balance : float;
  notices : list notice;
  history : option DataFrame;
  download : option Xl.BytesIO;
  choices : list Py.str
}.

Definition notice_list (n : option notice) : list notice :=
  match n with Some x => [x] | None => [] end.

(** One run of the script from [df = fetch_transactions()] to its last
    line. *)
Definition run_script (float_str : float -> Py.str) (w : widgets) : M page :=
  df <- fetch_transactions ;;
  bal <- summary_balance df ;;
  added <-
    (if submit w
     then r <- submit_add_form (add_date w) (add_desc w) (add_income w)
                               (add_expenses w) df ;;
          ret (fst r, [snd r])
     else ret (df, [])) ;;
  let df := fst added in
  let shown_history := if negb (df_empty df) then Some df else None in
  let file :=
    if negb (df_empty df) then Some (export_to_excel df) else None in
  if negb (df_empty df) then
    let entries := selector_options float_str df in
    row_id <- selected_row_id (selected w) ;;
    row_data df row_id ;;
    edited <-
      (if save_edit w
       then save_edit_block row_id (edit_date w) (edit_desc w)
                            (edit_income w) (edit_expenses w) df
       else ret (df, None)) ;;
    deleted <-
      (if delete_clicked w then delete_block row_id
       else ret (fst edited, None)) ;;
    ret (mkpage bal
           (snd added ++ notice_list (snd edited)
              ++ notice_list (snd deleted))
           shown_history file entries)
  else
    ret (mkpage bal (snd added) shown_history file []).

(** The stored balances are the running totals of the stored sequence. *)
Definition consistent (s : store) : Prop :=
  map balance (select_all_ordered s)
  = running_from 0 (select_all_ordered s).

(** No rowid in the table is above the AUTOINCREMENT counter. *)
Definition ids_issued (s : store) : bool :=
  (max_id (table s) <=? seq s)%Z.

(** An ASCII decimal digit. *)
Definition is_digit (c : N) : Prop := (48 <= c <= 57)%N.

(** The frame and the table that the pass [refetch_and_recalc] leaves. *)
Definition pass_frame (s : store) : DataFrame :=
  recalc_rows 0 (select_all_ordered s).

Definition pass_store (s : store) : store := persist (pass_frame s) s.

(** The table after [add_transaction], before the pass: the new row
    carries the provisional balance. *)
Definition added (d desc : Py.str) (inc exp : float) (s : store) : store :=
  insert d desc inc exp
    (last (map balance (select_all_ordered s)) 0 + inc - exp)%float s.

(** The rowid AUTOINCREMENT gives to the next row. *)
Definition next_id (s : store) : Z :=
  (Z.max (seq s) (max_id (table s)) + 1)%Z.

(** The frame has a row with this id. *)
Definition in_frame (row_id : Z) (df : DataFrame) : bool :=
  existsb (fun r => (id r =? row_id)%Z) df.

(** A description passes the forms' check. *)
Definition not_blank (desc : Py.str) : bool := Py.truthy (Py.strip desc).

(* ------------------------------------------------------------------ *)
(** ** Text order *)

Section TextOrder.

Lemma text_compare_refl (a : Py.str) : text_compare a a = Eq.
Proof.
  induction a as [|x a IH]; simpl; [reflexivity|].
  now rewrite N.compare_refl.
Qed.

Lemma text_compare_eq (a b : Py.str) : text_compare a b = Eq -> a = b.
Proof.
  revert b; induction a as [|x a IH]; intros [|y b]; simpl;
    try discriminate; [reflexivity|].
  destruct (x ?= y)%N eqn:E; try discriminate.
  apply N.compare_eq in E; intros H; apply IH in H; congruence.
Qed.

Lemma text_compare_antisym (a b : Py.str) :
  text_compare b a = CompOpp (text_compare a b).
Proof.
  revert b; induction a as [|x a IH]; intros [|y b]; simpl; try reflexivity.
  rewrite (N.compare_antisym x y).
  destruct (x ?= y)%N; simpl; auto.
Qed.

Lemma text_compare_lt_trans (a b c : Py.str) :
  text_compare a b = Lt -> text_compare b c = Lt -> text_compare a c = Lt.
Proof.
  revert b c; induction a as [|x a IH]; intros [|y b] [|z c]; simpl;
    try discriminate; try reflexivity.
  destruct (x ?= y)%N eqn:Exy; try discriminate;
    destruct (y ?= z)%N eqn:Eyz; try discriminate; intros H1 H2.
  - apply N.compare_eq in Exy, Eyz; subst.
    rewrite N.compare_refl; eauto.
  - apply N.compare_eq in Exy; subst; now rewrite Eyz.
  - apply N.compare_eq in Eyz; subst; now rewrite Exy.
  - rewrite N.compare_lt_iff in Exy, Eyz.
    assert (E : (x ?= z)%N = Lt) by (rewrite N.compare_lt_iff; lia).
    now rewrite E.
Qed.

Lemma text_leb_cases (a b : Py.str) :
  text_leb a b = true -> text_compare a b = Lt \/ a = b.
Proof.
  unfold text_leb; destruct (text_compare a b) eqn:E; try discriminate.
  - right; now apply text_compare_eq.
  - now left.
Qed.

Lemma text_leb_false (a b : Py.str) :
  text_leb a b = false -> text_compare b a = Lt.
Proof.
  unfold text_leb; rewrite (text_compare_antisym a b).
  destruct (text_compare a b); simpl; congruence.
Qed.

Lemma text_leb_refl (a : Py.str) : text_leb a a = true.
Proof. unfold text_leb; now rewrite text_compare_refl. Qed.

Lemma text_leb_of_lt (a b : Py.str) :
  text_compare a b = Lt -> text_leb a b = true.
Proof. unfold text_leb; now intros ->. Qed.

Lemma text_leb_trans (a b c : Py.str) :
  text_leb a b = true -> text_leb b c = true -> text_leb a c = true.
Proof.
  intros H1 H2.
  destruct (text_leb_cases _ _ H1) as [L1 | ->]; [|assumption].
  destruct (text_leb_cases _ _ H2) as [L2 | <-]; [|assumption].
  apply text_leb_of_lt; eauto using text_compare_lt_trans.
Qed.

End TextOrder.

(* ------------------------------------------------------------------ *)
(** ** The ordered scan *)

Section OrderedScan.

Lemma insert_by_date_perm (r : row) (l : list row) :
  Permutation (insert_by_date r l) (r :: l).
Proof.
  induction l as [|x l IH]; simpl; [reflexivity|].
  destruct (text_leb _ _); [reflexivity|].
  rewrite IH; apply perm_swap.
Qed.

Lemma order_by_perm (l : list row) : Permutation (order_by_trans_date l) l.
Proof.
  induction l as [|r l IH]; simpl; [constructor|].
  rewrite insert_by_date_perm; now constructor.
Qed.

Lemma insert_by_date_in (r y : row) (l : list row) :
  In y (insert_by_date r l) <-> y = r \/ In y l.
Proof.
  split; intros H.
  - apply (Permutation_in _ (insert_by_date_perm r l)) in H.
    destruct H; auto.
  - apply (Permutation_in _ (Permutation_sym (insert_by_date_perm r l))).
    destruct H; [left|right]; auto.
Qed.

Lemma insert_by_date_sorted (r : row) (l : list row) :
  StronglySorted date_le l -> StronglySorted date_le (insert_by_date r l).
Proof.
  induction 1 as [|x l Hs IH Hx]; simpl.
  - repeat constructor.
  - destruct (text_leb (trans_date r) (trans_date x)) eqn:E.
    + constructor; [now constructor|].
      constructor; [exact E|].
      rewrite Forall_forall in *; intros y Hy.
      unfold date_le in *; eauto using text_leb_trans.
    + constructor; [exact IH|].
      rewrite Forall_forall in *; intros y Hy.
      apply insert_by_date_in in Hy; destruct Hy as [->|Hy]; auto.
      apply text_leb_of_lt, text_leb_false, E.
Qed.

Lemma order_by_sorted (l : list row) :
  StronglySorted date_le (order_by_trans_date l).
Proof.
  induction l; simpl; [constructor|now apply insert_by_date_sorted].
Qed.

(** Sorting sees only the date column. *)
Lemma insert_by_date_map (f : row -> row) (r : row) (l : list row) :
  (forall x, trans_date (f x) = trans_date x) ->
  insert_by_date (f r) (map f l) = map f (insert_by_date r l).
Proof.
  intros Hf; induction l as [|x l IH]; simpl; [reflexivity|].
  rewrite !Hf; destruct (text_leb _ _); simpl; [reflexivity|].
  now rewrite IH.
Qed.

Lemma order_by_map (f : row -> row) (l : list row) :
  (forall x, trans_date (f x) = trans_date x) ->
  order_by_trans_date (map f l) = map f (order_by_trans_date l).
Proof.
  intros Hf; induction l as [|r l IH]; simpl; [reflexivity|].
  now rewrite IH, insert_by_date_map.
Qed.

(** The scan is stable, so it commutes with dropping rows. *)
Lemma insert_by_date_skip (p : row -> bool) (r : row) (l : list row) :
  StronglySorted date_le l ->
  filter p (insert_by_date r l) =
  if p r then insert_by_date r (filter p l) else filter p l.
Proof.
  induction 1 as [|x l Hs IH Hx]; simpl.
  - destruct (p r); reflexivity.
  - destruct (text_leb (trans_date r) (trans_date x)) eqn:E; simpl.
    + destruct (p r) eqn:Pr, (p x) eqn:Px; simpl; rewrite ?E; try reflexivity.
      (* r is kept, x is dropped: r still goes in front of what follows *)
      clear IH; induction l as [|y l IHl]; simpl; [reflexivity|].
      inversion Hx as [|? ? Hxy Hx']; subst.
      inversion Hs as [|? ? Hs' Hy]; subst.
      destruct (p y) eqn:Py; simpl.
      * unfold date_le in Hxy; now rewrite (text_leb_trans _ _ _ E Hxy).
      * apply IHl; assumption.
    + rewrite IH.
      destruct (p r), (p x); simpl; rewrite ?E; reflexivity.
Qed.

Lemma order_by_filter (p : row -> bool) (l : list row) :
  order_by_trans_date (filter p l) = filter p (order_by_trans_date l).
Proof.
  induction l as [|r l IH]; simpl; [reflexivity|].
  rewrite insert_by_date_skip by apply order_by_sorted.
  destruct (p r); simpl; now rewrite IH.
Qed.

(** With rowids ascending along the table, ties on the date come out in
    rowid order. *)
Lemma ids_ascending_above (lo : Z) (l : list row) :
  ids_ascending_from lo l = true -> Forall (fun r => (lo < id r)%Z) l.
Proof.
  revert lo; induction l as [|r l IH]; intros lo; simpl; [constructor|].
  intros H; apply andb_prop in H; destruct H as [H1 H2].
  apply Z.ltb_lt in H1; constructor; [exact H1|].
  eapply Forall_impl; [|apply (IH _ H2)]; simpl; intros; lia.
Qed.

Lemma fetched_before_date_le (a b : row) : fetched_before a b -> date_le a b.
Proof.
  unfold date_le; intros [H | [H _]];
    [now apply text_leb_of_lt | rewrite H; apply text_leb_refl].
Qed.

Lemma insert_by_date_fetched (r : row) (l : list row) :
  StronglySorted fetched_before l ->
  Forall (fun y => (id r < id y)%Z) l ->
  StronglySorted fetched_before (insert_by_date r l).
Proof.
  induction 1 as [|x l Hs IH Hx]; intros Hid; simpl.
  - repeat constructor.
  - inversion Hid as [|? ? Hrx Hid']; subst.
    assert (Hfirst : text_leb (trans_date r) (trans_date x) = true ->
                     fetched_before r x).
    { intros E; destruct (text_leb_cases _ _ E) as [L|Q];
        [now left | right; split; assumption]. }
    destruct (text_leb (trans_date r) (trans_date x)) eqn:E.
    + constructor; [now constructor|].
      constructor; [now apply Hfirst|].
      rewrite Forall_forall in *; intros y Hy.
      assert (Ery : text_leb (trans_date r) (trans_date y) = true).
      { eapply text_leb_trans; [exact E|].
        apply fetched_before_date_le; auto. }
      destruct (text_leb_cases _ _ Ery) as [L|Q];
        [now left | right; split; auto].
    + constructor; [apply IH; assumption|].
      rewrite Forall_forall in *; intros y Hy.
      apply insert_by_date_in in Hy; destruct Hy as [->|Hy]; auto.
      left; now apply text_leb_false.
Qed.

Lemma order_by_fetched (lo : Z) (l : list row) :
  ids_ascending_from lo l = true ->
  StronglySorted fetched_before (order_by_trans_date l).
Proof.
  revert lo; induction l as [|r l IH]; intros lo; simpl; [constructor|].
  intros H; apply andb_prop in H; destruct H as [_ H].
  apply insert_by_date_fetched; [eapply IH; eassumption|].
  rewrite Forall_forall; intros y Hy.
  apply (Permutation_in _ (order_by_perm l)) in Hy.
  pose proof (ids_ascending_above _ _ H) as Ha.
  rewrite Forall_forall in Ha; auto.
Qed.

End OrderedScan.

(* ------------------------------------------------------------------ *)
(** ** The two loops of [recalc_balance] *)

Section Recalc.

Lemma with_balance_same (r : row) : with_balance r (balance r) = r.
Proof. now destruct r. Qed.

Lemma running_loop (df : DataFrame) (b : float) (acc : list float) :
  snd (fold_left
         (fun (st : float * list float) (r : row) =>
            let balance := (fst st + (income r - expenses r))%float in
            (balance, snd st ++ [balance]))
         df (b, acc))
  = acc ++ running_from b df.
Proof.
  revert b acc; induction df as [|r df IH]; intros b acc; simpl.
  - now rewrite app_nil_r.
  - rewrite IH, <- app_assoc; reflexivity.
Qed.

Lemma running_balances_from_zero (df : DataFrame) :
  running_balances df = running_from 0 df.
Proof. unfold running_balances; now rewrite running_loop. Qed.

Lemma set_balance_running (b : float) (df : DataFrame) :
  set_balance df (running_from b df) = Some (recalc_rows b df).
Proof.
  revert b; induction df as [|r df IH]; intros b; simpl; [reflexivity|].
  now rewrite IH.
Qed.

Lemma recalc_rows_balance (b : float) (df : DataFrame) :
  map balance (recalc_rows b df) = running_from b df.
Proof.
  revert b; induction df as [|r df IH]; intros b; simpl; [reflexivity|].
  now rewrite IH.
Qed.

Lemma recalc_rows_frame (b : float) (df : DataFrame) :
  map frame (recalc_rows b df) = map frame df.
Proof.
  revert b; induction df as [|r df IH]; intros b; simpl; [reflexivity|].
  now rewrite IH.
Qed.

(** The running totals read only the two amount columns. *)
Lemma running_from_amounts (b : float) (df df' : DataFrame) :
  map income df = map income df' -> map expenses df = map expenses df' ->
  running_from b df = running_from b df'.
Proof.
  revert b df'; induction df as [|r df IH]; intros b [|r' df']; simpl;
    try discriminate; [reflexivity|].
  intros Hi He; injection Hi as Hi1 Hi2; injection He as He1 He2.
  rewrite Hi1, He1; f_equal; auto.
Qed.

Lemma recalc_rows_again (b : float) (df : DataFrame) :
  recalc_rows b (recalc_rows b df) = recalc_rows b df.
Proof.
  revert b; induction df as [|r df IH]; intros b; simpl; [reflexivity|].
  now rewrite IH.
Qed.

Lemma running_from_app (b : float) (l1 l2 : DataFrame) :
  running_from b (l1 ++ l2) =
  running_from b l1 ++ running_from (balance_after b l1) l2.
Proof.
  revert b; induction l1 as [|r l1 IH]; intros b; simpl; [reflexivity|].
  now rewrite IH.
Qed.

Lemma for_each_execute {A} (l : list A) (stmt : A -> store -> store)
  (s : store) :
  for_each l (fun x => execute (stmt x)) s
  = Returned tt (fold_left (fun s x => stmt x s) l s).
Proof.
  revert s; induction l as [|x l IH]; intros s; simpl; [reflexivity|].
  unfold bind, execute at 1; now rewrite IH.
Qed.

Lemma recalc_balance_run (df : DataFrame) (s : store) :
  recalc_balance df s
  = Returned (recalc_rows 0 df) (persist (recalc_rows 0 df) s).
Proof.
  unfold recalc_balance.
  rewrite running_balances_from_zero, set_balance_running.
  unfold bind; rewrite for_each_execute; reflexivity.
Qed.

Lemma refetch_and_recalc_run (s : store) :
  refetch_and_recalc s
  = Returned (recalc_rows 0 (select_all_ordered s))
             (persist (recalc_rows 0 (select_all_ordered s)) s).
Proof.
  unfold refetch_and_recalc, bind, fetch_transactions.
  apply recalc_balance_run.
Qed.

End Recalc.

(* ------------------------------------------------------------------ *)
(** ** Writing the balances back *)

Section Persist.

Lemma persist_seq (df : DataFrame) (s : store) : seq (persist df s) = seq s.
Proof.
  revert s; unfold persist; induction df as [|r df IH]; intros s; simpl;
    [reflexivity|].
  now rewrite IH.
Qed.

Lemma persist_table (df : DataFrame) (s : store) :
  table (persist df s)
  = map (fun r => with_balance r (last_balance_for (id r) df (balance r)))
        (table s).
Proof.
  revert s; unfold persist, last_balance_for.
  induction df as [|x df IH]; intros s; simpl.
  - rewrite <- (map_id (table s)) at 1.
    apply map_ext; intros r; now rewrite with_balance_same.
  - rewrite IH; simpl; rewrite map_map.
    apply map_ext; intros r.
    rewrite (Z.eqb_sym (id x) (id r)).
    destruct (id r =? id x)%Z; reflexivity.
Qed.

Lemma persist_frame (df : DataFrame) (s : store) :
  map frame (table (persist df s)) = map frame (table s).
Proof. rewrite persist_table, map_map; now apply map_ext. Qed.

Lemma last_balance_for_again (i : Z) (df : DataFrame) (b : float) :
  last_balance_for i df (last_balance_for i df b) = last_balance_for i df b.
Proof.
  unfold last_balance_for; revert b.
  induction df as [|x df IH]; intros b; simpl; [reflexivity|].
  destruct (id x =? i)%Z; [|apply IH].
  (* a row with this id overrides whatever came before it *)
  clear IH; revert b; generalize (balance x).
  induction df as [|y df IH]; intros c b; simpl; [reflexivity|].
  destruct (id y =? i)%Z; auto.
Qed.

Lemma persist_again (df : DataFrame) (s : store) :
  persist df (persist df s) = persist df s.
Proof.
  assert (T : table (persist df (persist df s)) = table (persist df s)).
  { rewrite (persist_table df (persist df s)), persist_table, map_map.
    apply map_ext; intros r; unfold with_balance; simpl.
    now rewrite last_balance_for_again. }
  pose proof (persist_seq df (persist df s)) as Q.
  destruct (persist df (persist df s)), (persist df s); simpl in *; congruence.
Qed.

Lemma last_balance_for_absent (i : Z) (df : DataFrame) (b : float) :
  ~ In i (map id df) -> last_balance_for i df b = b.
Proof.
  unfold last_balance_for; revert b.
  induction df as [|x df IH]; intros b H; simpl in *; [reflexivity|].
  destruct (Z.eqb_spec (id x) i); [tauto|].
  apply IH; tauto.
Qed.

Lemma last_balance_for_unique (r : row) (df : DataFrame) (b : float) :
  NoDup (map id df) -> In r df -> last_balance_for (id r) df b = balance r.
Proof.
  revert b; induction df as [|x df IH]; intros b Hn Hin; simpl in *;
    [contradiction|].
  inversion Hn as [|? ? Hx Hn']; subst.
  destruct Hin as [->|Hin].
  - unfold last_balance_for; simpl; rewrite Z.eqb_refl.
    now apply last_balance_for_absent.
  - unfold last_balance_for; simpl.
    destruct (Z.eqb_spec (id x) (id r)) as [E|_].
    + exfalso; apply Hx; rewrite E; now apply in_map.
    + now apply IH.
Qed.

Lemma ids_ascending_nodup (lo : Z) (l : list row) :
  ids_ascending_from lo l = true -> NoDup (map id l).
Proof.
  revert lo; induction l as [|r l IH]; intros lo; simpl; [constructor|].
  intros H; apply andb_prop in H; destruct H as [_ H].
  constructor; [|eapply IH; eassumption].
  intros Hin; apply in_map_iff in Hin; destruct Hin as [y [E Hy]].
  pose proof (ids_ascending_above _ _ H) as Ha.
  rewrite Forall_forall in Ha; apply Ha in Hy; lia.
Qed.

Lemma fetched_ids_nodup (s : store) :
  wf s = true -> NoDup (map id (select_all_ordered s)).
Proof.
  intros H; apply ids_ascending_nodup in H.
  eapply Permutation_NoDup; [|exact H].
  apply Permutation_map, Permutation_sym, order_by_perm.
Qed.

Lemma recalc_rows_same_frame (b : float) (df df' : DataFrame) :
  map frame df = map frame df' -> recalc_rows b df = recalc_rows b df'.
Proof.
  revert b df'; induction df as [|r df IH]; intros b [|r' df']; simpl;
    try discriminate; [reflexivity|].
  intros H; destruct r, r'; unfold frame at 1 3 in H; simpl in H.
  inversion H; subst; unfold with_balance; simpl; f_equal; auto.
Qed.

(** With one row for each id, reading a row's balance back from the
    recalculated frame gives that frame. *)
Lemma reread_recalc_rows (L : DataFrame) (b : float) (df : DataFrame) :
  NoDup (map id L) ->
  (forall r', In r' (recalc_rows b df) -> In r' L) ->
  map (fun r => with_balance r (last_balance_for (id r) L (balance r))) df
  = recalc_rows b df.
Proof.
  intros Hn; revert b; induction df as [|r df IH]; intros b Hin; simpl;
    [reflexivity|].
  simpl in Hin; f_equal.
  - set (r' := with_balance r (b + (income r - expenses r))%float) in *.
    change (id r) with (id r').
    rewrite (last_balance_for_unique r' L); auto.
  - apply IH; auto.
Qed.

Lemma select_after_persist (df : DataFrame) (s : store) :
  select_all_ordered (persist df s)
  = map (fun r => with_balance r (last_balance_for (id r) df (balance r)))
        (select_all_ordered s).
Proof.
  unfold select_all_ordered; rewrite persist_table.
  now apply order_by_map.
Qed.

(** After the pass the table holds exactly the recalculated rows. *)
Lemma refetch_after_recalc (s : store) :
  wf s = true ->
  select_all_ordered (persist (recalc_rows 0 (select_all_ordered s)) s)
  = recalc_rows 0 (select_all_ordered s).
Proof.
  intros H; rewrite select_after_persist.
  apply reread_recalc_rows; [|auto].
  replace (map id (recalc_rows 0 (select_all_ordered s)))
    with (map id (select_all_ordered s)); [now apply fetched_ids_nodup|].
  pose proof (recalc_rows_frame 0 (select_all_ordered s)) as F.
  apply (f_equal (map (fun t => fst (fst (fst (fst t)))))) in F.
  rewrite !map_map in F; symmetry; exact F.
Qed.

End Persist.

(* ------------------------------------------------------------------ *)
(** ** The recalculation pass *)

Section RecalculationPass.

Lemma float_neq (x y : float) :
  PrimFloat.eqb x x = true -> PrimFloat.eqb x y = false -> x <> y.
Proof. intros Hx Hxy E; rewrite <- E in Hxy; congruence. Qed.

Lemma running_from_step (b : float) (df : DataFrame) (i : nat) :
  (i < List.length df)%nat ->
  nth i (running_from b df) 0%float
  = ((match i with
      | O => b
      | S j => nth j (running_from b df) 0%float
      end)
     + (nth i (map income df) 0 - nth i (map expenses df) 0))%float.
Proof.
  revert b i; induction df as [|r df IH]; intros b i Hi; simpl in Hi;
    [lia|].
  destruct i as [|i]; simpl; [reflexivity|].
  rewrite IH by lia.
  destruct i; reflexivity.
Qed.

Lemma running_from_totals (b : float) (df : DataFrame) :
  running_from b df = totals b (map amounts df).
Proof.
  revert b; induction df as [|r df IH]; intros b; simpl; [reflexivity|].
  now rewrite IH.
Qed.

(** C10: the recalculation pass rewrites balances only.  Whatever frame and
    table it is run on, it returns; the frame it returns and the table it
    leaves have the same rows as before in the same order, with the same
    id, date, description, income and expenses; no row is added or
    removed, and the rowid counter is untouched. *)
Theorem recalc_balance_touches_balance_only (df : DataFrame) (s : store) :
  exists df' s',
    recalc_balance df s = Returned df' s' /\
    map frame df' = map frame df /\
    map frame (table s') = map frame (table s) /\
    List.length df' = List.length df /\
    List.length (table s') = List.length (table s) /\
    seq s' = seq s.
Proof.
  exists (recalc_rows 0 df), (persist (recalc_rows 0 df) s).
  pose proof (recalc_rows_frame 0 df) as F1.
  pose proof (persist_frame (recalc_rows 0 df) s) as F2.
  repeat split.
  - apply recalc_balance_run.
  - exact F1.
  - exact F2.
  - apply (f_equal (@List.length _)) in F1; now rewrite !length_map in F1.
  - apply (f_equal (@List.length _)) in F2; now rewrite !length_map in F2.
  - apply persist_seq.
Qed.

(** C1, as the specification states it, fails in binary floating point:
    for the rows of [two_rows] the pass stores 2.7755575615628914e-17 on
    the second row, while [sum(income) - sum(expenses)] over the two rows
    is 5.5511151231257827e-17. *)
Lemma sum_form_counterexample :
  wf two_rows = true /\
  map amounts (select_all_ordered two_rows)
    = [(0.1, 0); (0.2, 0.3)]%float /\
  map balance (select_all_ordered
                 (final_store (refetch_and_recalc two_rows)))
    = [0.1; 2.7755575615628914e-17]%float /\
  sum_form (select_all_ordered two_rows) 1 = 5.5511151231257827e-17%float /\
  nth 1 (map balance (select_all_ordered
                        (final_store (refetch_and_recalc two_rows)))) 0%float
    <> sum_form (select_all_ordered two_rows) 1.
Proof.
  repeat split; try (vm_compute; reflexivity).
  apply float_neq; vm_compute; reflexivity.
Qed.

(** C1, amended: for every stored sequence, fetched in date order, the
    recalculation pass returns; row [i] gets
    [balance[i] = balance[i-1] + (income[i] - expenses[i])] with
    [balance[-1] = 0], evaluated left to right in binary floating point;
    nothing else in the rows changes; and the table afterwards holds
    exactly these rows, so fetching again returns them. *)
Theorem recalc_balance_running_total (s : store) :
  wf s = true ->
  exists df' s',
    recalc_balance (select_all_ordered s) s = Returned df' s' /\
    map frame df' = map frame (select_all_ordered s) /\
    (forall i, (i < List.length (select_all_ordered s))%nat ->
       nth i (map balance df') 0%float
       = ((match i with
           | O => 0
           | S j => nth j (map balance df') 0
           end)
          + (nth i (map income (select_all_ordered s)) 0
             - nth i (map expenses (select_all_ordered s)) 0))%float) /\
    select_all_ordered s' = df' /\
    Permutation (table s') df'.
Proof.
  intros H.
  exists (recalc_rows 0 (select_all_ordered s)),
         (persist (recalc_rows 0 (select_all_ordered s)) s).
  split; [apply recalc_balance_run|].
  split; [apply recalc_rows_frame|].
  split.
  { intros i Hi; rewrite recalc_rows_balance.
    now apply running_from_step. }
  pose proof (refetch_after_recalc s H) as R.
  split; [exact R|].
  rewrite <- R at 2.
  apply Permutation_sym, order_by_perm.
Qed.

Lemma recalc_balance_running_total_witness :
  wf two_rows = true /\
  exists df' s',
    recalc_balance (select_all_ordered two_rows) two_rows = Returned df' s' /\
    nth 1 (map balance df') 0%float
      = (nth 0 (map balance df') 0 + (0.2 - 0.3))%float /\
    map balance df' = [0.1; 2.7755575615628914e-17]%float /\
    select_all_ordered s' = df'.
Proof.
  split; [reflexivity|].
  destruct (recalc_balance_running_total two_rows eq_refl)
    as (df' & s' & Hrun & _ & Hstep & Hsel & _).
  exists df', s'; split; [exact Hrun|].
  split; [apply (Hstep 1%nat); simpl; lia|].
  split; [|exact Hsel].
  rewrite recalc_balance_run in Hrun; injection Hrun as <- _.
  vm_compute; reflexivity.
Defined.

(** C2: the balances the pass assigns are a function of the ordered
    (income, expenses) pairs alone, and the pass is idempotent: run again
    on the frame it returned, or after fetching again, it returns the same
    frame and leaves the table as the first run left it. *)
Theorem recalc_balance_idempotent (df : DataFrame) (s : store) :
  exists df1 s1,
    recalc_balance df s = Returned df1 s1 /\
    map balance df1 = totals 0 (map amounts df) /\
    recalc_balance df1 s1 = Returned df1 s1 /\
    exists dfa sa,
      refetch_and_recalc s = Returned dfa sa /\
      refetch_and_recalc sa = Returned dfa sa.
Proof.
  exists (recalc_rows 0 df), (persist (recalc_rows 0 df) s).
  split; [apply recalc_balance_run|].
  split; [now rewrite recalc_rows_balance, running_from_totals|].
  split.
  { rewrite recalc_balance_run, recalc_rows_again.
    now rewrite persist_again. }
  exists (recalc_rows 0 (select_all_ordered s)),
         (persist (recalc_rows 0 (select_all_ordered s)) s).
  split; [apply refetch_and_recalc_run|].
  rewrite refetch_and_recalc_run, select_after_persist.
  set (df0 := select_all_ordered s).
  set (h := fun r => with_balance r _).
  assert (E : recalc_rows 0 (map h df0) = recalc_rows 0 df0).
  { apply recalc_rows_same_frame; rewrite map_map.
    now apply map_ext. }
  rewrite E; now rewrite persist_again.
Qed.

End RecalculationPass.

(* ------------------------------------------------------------------ *)
(** ** Insert, update and delete *)

Section Mutations.

Lemma store_eta (s : store) : {| table := table s; seq := seq s |} = s.
Proof. now destruct s. Qed.

Lemma filter_none_dropped {A} (q : A -> bool) (l : list A) :
  existsb q l = false -> filter (fun x => negb (q x)) l = l.
Proof.
  induction l as [|x l IH]; simpl; [reflexivity|].
  intros H; apply orb_false_elim in H; destruct H as [H1 H2].
  rewrite H1, IH; auto.
Qed.

Lemma delete_absent (row_id : Z) (s : store) :
  has_id row_id s = false -> delete row_id s = s.
Proof.
  unfold has_id, delete; intros H.
  rewrite (filter_none_dropped (fun r => (id r =? row_id)%Z)) by exact H.
  apply store_eta.
Qed.

Lemma update_absent (d desc : Py.str) (inc exp : float) (row_id : Z)
  (s : store) :
  has_id row_id s = false -> update d desc inc exp row_id s = s.
Proof.
  unfold has_id, update; intros H.
  assert (E : map (fun r => if (id r =? row_id)%Z
                            then mkrow (id r) d desc inc exp (balance r)
                            else r) (table s) = table s).
  { rewrite <- (map_id (table s)) at 2.
    apply map_ext_in; intros r Hr.
    destruct (id r =? row_id)%Z eqn:E; [|reflexivity].
    exfalso; apply Bool.not_true_iff_false in H; apply H.
    apply existsb_exists; eauto. }
  rewrite E; apply store_eta.
Qed.

Lemma has_id_after_delete (row_id : Z) (s : store) :
  has_id row_id (delete row_id s) = false.
Proof.
  unfold has_id, delete; simpl.
  induction (table s) as [|r l IH]; simpl; [reflexivity|].
  destruct (id r =? row_id)%Z eqn:E; simpl; [exact IH|].
  now rewrite E.
Qed.

(** C3, as the specification states it, fails: on a table that has only
    row 1, deleting or updating id 2 returns normally instead of raising
    [NotFoundError], and so does deleting row 1 a second time. *)
Lemma missing_id_counterexample :
  let s := {| table := [mkrow 1 (Py.lit "2024-01-01") (Py.lit "Opening")
                              100 0 100];
              seq := 1 |} in
  has_id 2 s = false /\
  failed_with (delete_transaction 2 s) = None /\
  failed_with (update_transaction 2 (Py.lit "2024-01-02") (Py.lit "Rent")
                 0 40 s) = None /\
  failed_with (delete_transaction 1 s) = None /\
  failed_with (delete_transaction 1 (final_store (delete_transaction 1 s)))
    = None /\
  failed_with (delete_transaction 2 s) <> Some Py.NotFoundError.
Proof. repeat split; vm_compute; congruence. Qed.

(** C3, amended: for every id that does not exist in the table, [update]
    and [delete] return normally and leave the table unchanged; no
    [NotFoundError] is raised.  Deletion is idempotent: deleting the same
    id a second time returns normally too and changes nothing. *)
Theorem missing_id_is_a_silent_no_op (row_id : Z) (d desc : Py.str)
  (inc exp : float) (s : store) :
  has_id row_id s = false ->
  delete_transaction row_id s = Returned tt s /\
  update_transaction row_id d desc inc exp s = Returned tt s /\
  forall s0 : store,
    exists s1,
      delete_transaction row_id s0 = Returned tt s1 /\
      has_id row_id s1 = false /\
      delete_transaction row_id s1 = Returned tt s1.
Proof.
  intros H; unfold delete_transaction, update_transaction, bind, execute,
    commit, ret.
  rewrite delete_absent, update_absent by exact H.
  repeat split.
  intros s0; exists (delete row_id s0).
  pose proof (has_id_after_delete row_id s0) as H0.
  rewrite (delete_absent row_id (delete row_id s0)) by exact H0.
  auto.
Qed.

Lemma missing_id_is_a_silent_no_op_witness :
  has_id 2 (final_store (refetch_and_recalc two_rows)) = true /\
  has_id 3 (final_store (refetch_and_recalc two_rows)) = false /\
  delete_transaction 3 (final_store (refetch_and_recalc two_rows))
    = Returned tt (final_store (refetch_and_recalc two_rows)).
Proof.
  split; [reflexivity|]; split; [reflexivity|].
  apply (missing_id_is_a_silent_no_op 3 [] [] 0 0
           (final_store (refetch_and_recalc two_rows)) eq_refl).
Defined.

Lemma max_id_bound (l : list row) :
  Forall (fun r => (id r <= max_id l)%Z) l.
Proof.
  induction l as [|r l IH]; simpl; constructor; [lia|].
  eapply Forall_impl; [|exact IH]; simpl; intros; lia.
Qed.

Lemma fresh_id_absent (s : store) :
  has_id (Z.max (seq s) (max_id (table s)) + 1) s = false.
Proof.
  unfold has_id; apply Bool.not_true_iff_false; intros H.
  apply existsb_exists in H; destruct H as [r [Hr E]].
  pose proof (max_id_bound (table s)) as B.
  rewrite Forall_forall in B; apply B in Hr.
  apply Z.eqb_eq in E; lia.
Qed.

(** The provisional balance is always found: the second fetch sees the
    rows the first one saw. *)
Lemma add_transaction_run (d desc : Py.str) (inc exp : float) (s : store) :
  add_transaction d desc inc exp s
  = Returned tt
      (insert d desc inc exp
         (last (map balance (select_all_ordered s)) 0 + inc - exp)%float s).
Proof.
  unfold add_transaction, bind, fetch_transactions.
  destruct (select_all_ordered s) as [|r df] eqn:E; [reflexivity|].
  cbn [df_empty negb]; unfold iloc_last.
  assert (L : rev (map balance (r :: df))
              = last (map balance (r :: df)) 0%float
                  :: rev (removelast (map balance (r :: df)))).
  { rewrite (app_removelast_last 0%float (l := map balance (r :: df))) at 1
      by discriminate.
    now rewrite rev_app_distr. }
  rewrite E, L; reflexivity.
Qed.

(** C4: an add-form submission whose description strips to the empty
    string, or whose income and expenses both compare equal to zero, ends
    in a warning; the table, and with it the stored sequence, is what it
    was, and the frame on screen is not refreshed. *)
Theorem submit_add_form_rejects (trans_date : Py.date) (desc : Py.str)
  (inc exp : float) (df : DataFrame) (s : store) :
  Py.strip desc = [] \/
  (PrimFloat.eqb inc 0 = true /\ PrimFloat.eqb exp 0 = true) ->
  exists text,
    submit_add_form trans_date desc inc exp df s
      = Returned (df, warning text) s /\
    select_all_ordered
      (final_store (submit_add_form trans_date desc inc exp df s))
      = select_all_ordered s.
Proof.
  intros H; unfold submit_add_form.
  destruct (Py.truthy (Py.strip desc)) eqn:T; simpl.
  - destruct H as [H | [Hi He]]; [rewrite H in T; discriminate|].
    unfold both_zero; rewrite Hi, He; simpl.
    eexists; split; reflexivity.
  - eexists; split; reflexivity.
Qed.

Lemma submit_add_form_rejects_witness :
  Py.strip (Py.lit "   ") = [] /\
  PrimFloat.eqb 0 0 = true /\
  exists text,
    submit_add_form (Py.mkdate 2024 1 3) (Py.lit "   ") 0 0
      (select_all_ordered two_rows) two_rows
    = Returned (select_all_ordered two_rows, warning text) two_rows.
Proof.
  split; [reflexivity|]; split; [reflexivity|].
  destruct (submit_add_form_rejects (Py.mkdate 2024 1 3) (Py.lit "   ") 0 0
              (select_all_ordered two_rows) two_rows (or_introl eq_refl))
    as [text [H _]].
  exists text; exact H.
Defined.

(** C9: [add_transaction] checks nothing.  For every date text,
    description and pair of amounts it returns normally, having appended
    one row that carries exactly these values under a rowid not in the
    table before; this includes the empty description with both amounts
    zero, which the add form turns away with a warning before the table
    is reached. *)
Theorem add_transaction_never_validates (d desc : Py.str) (inc exp : float)
  (s : store) :
  (exists new_id bal,
     add_transaction d desc inc exp s
       = Returned tt {| table := table s ++ [mkrow new_id d desc inc exp bal];
                        seq := new_id |} /\
     has_id new_id s = false) /\
  (exists new_id bal,
     add_transaction d [] 0 0 s
       = Returned tt {| table := table s ++ [mkrow new_id d [] 0 0 bal];
                        seq := new_id |}) /\
  (forall (trans_date : Py.date) (df : DataFrame),
     exists text,
       submit_add_form trans_date [] 0 0 df s = Returned (df, warning text) s).
Proof.
  split; [|split].
  - do 2 eexists; split; [apply add_transaction_run|apply fresh_id_absent].
  - do 2 eexists; apply add_transaction_run.
  - intros; eexists; reflexivity.
Qed.

End Mutations.

(* ------------------------------------------------------------------ *)
(** ** ISO dates sort as dates *)

Section IsoDates.

Local Open Scope Z_scope.

Lemma digit_compare (n m : Z) :
  (Py.digit n ?= Py.digit m)%N = (n mod 10 ?= m mod 10).
Proof.
  unfold Py.digit.
  pose proof (Z.mod_pos_bound n 10 ltac:(lia)).
  pose proof (Z.mod_pos_bound m 10 ltac:(lia)).
  rewrite <- N2Z.inj_compare, !N2Z.inj_add, !Z2N.id by lia.
  apply Z.add_compare_mono_l.
Qed.

Lemma text_compare_cons (x y : N) (a b : Py.str) :
  text_compare (x :: a) (y :: b) = lex (x ?= y)%N (text_compare a b).
Proof. simpl; now destruct (x ?= y)%N. Qed.

Lemma two_digits_compare (n m : Z) :
  0 <= n < 100 -> 0 <= m < 100 ->
  lex (n / 10 mod 10 ?= m / 10 mod 10) (n mod 10 ?= m mod 10) = (n ?= m).
Proof.
  intros Hn Hm.
  rewrite (Z.mod_small (n / 10)), (Z.mod_small (m / 10))
    by (split; [apply Z.div_pos | apply Z.div_lt_upper_bound]; lia).
  pose proof (Z.div_mod n 10 ltac:(lia)).
  pose proof (Z.div_mod m 10 ltac:(lia)).
  pose proof (Z.mod_pos_bound n 10 ltac:(lia)).
  pose proof (Z.mod_pos_bound m 10 ltac:(lia)).
  symmetry; unfold lex.
  destruct (Z.compare_spec (n / 10) (m / 10));
    [destruct (Z.compare_spec (n mod 10) (m mod 10))|..];
    first [apply Z.compare_eq_iff | apply Z.compare_lt_iff
          | apply Z.compare_gt_iff]; lia.
Qed.

(** Splitting off the last decimal digit keeps the order. *)
Lemma last_digit_compare (n m : Z) :
  lex (n / 10 ?= m / 10) (n mod 10 ?= m mod 10) = (n ?= m).
Proof.
  pose proof (Z.div_mod n 10 ltac:(lia)).
  pose proof (Z.div_mod m 10 ltac:(lia)).
  pose proof (Z.mod_pos_bound n 10 ltac:(lia)).
  pose proof (Z.mod_pos_bound m 10 ltac:(lia)).
  symmetry; unfold lex.
  destruct (Z.compare_spec (n / 10) (m / 10));
    [destruct (Z.compare_spec (n mod 10) (m mod 10))|..];
    first [apply Z.compare_eq_iff | apply Z.compare_lt_iff
          | apply Z.compare_gt_iff]; lia.
Qed.

Lemma lex_assoc (a b c : comparison) : lex (lex a b) c = lex a (lex b c).
Proof. now destruct a. Qed.

Lemma four_digits_compare (n m : Z) :
  0 <= n < 10000 -> 0 <= m < 10000 ->
  lex (n / 1000 mod 10 ?= m / 1000 mod 10)
    (lex (n / 100 mod 10 ?= m / 100 mod 10)
       (lex (n / 10 mod 10 ?= m / 10 mod 10) (n mod 10 ?= m mod 10)))
  = (n ?= m).
Proof.
  intros Hn Hm.
  rewrite <- (last_digit_compare n m).
  rewrite <- (last_digit_compare (n / 10) (m / 10)).
  rewrite <- (last_digit_compare (n / 10 / 10) (m / 10 / 10)).
  rewrite !Z.div_div by lia; simpl (10 * 10); simpl (100 * 10).
  rewrite (Z.mod_small (n / 1000)), (Z.mod_small (m / 1000))
    by (split; [apply Z.div_pos | apply Z.div_lt_upper_bound]; lia).
  now rewrite !lex_assoc.
Qed.

(** On the texts that [str] makes of dates, the BINARY collation is the
    calendar order. *)
Lemma iso_text_compare (a b : Py.date) :
  Py.date_ok a = true -> Py.date_ok b = true ->
  text_compare (Py.str_of_date a) (Py.str_of_date b) = Py.date_compare a b.
Proof.
  unfold Py.date_ok; intros Ha Hb.
  repeat (apply andb_prop in Ha; destruct Ha as [Ha ?]).
  repeat (apply andb_prop in Hb; destruct Hb as [Hb ?]).
  repeat match goal with
         | H : (_ <=? _) = true |- _ => apply Z.leb_le in H
         end.
  unfold Py.str_of_date; rewrite !text_compare_cons, !digit_compare.
  change (45 ?= 45)%N with Eq; simpl (text_compare [] []).
  change (lex Eq) with (fun c : comparison => c); cbv beta.
  pose proof (four_digits_compare (Py.year a) (Py.year b)
                ltac:(lia) ltac:(lia)) as Y.
  pose proof (two_digits_compare (Py.month a) (Py.month b)
                ltac:(lia) ltac:(lia)) as Mo.
  pose proof (two_digits_compare (Py.day a) (Py.day b)
                ltac:(lia) ltac:(lia)) as D.
  unfold Py.date_compare.
  rewrite <- Y, <- Mo, <- D.
  unfold lex.
  repeat match goal with
         | |- context [match ?c with Eq => _ | Lt => _ | Gt => _ end] =>
             destruct c; try reflexivity
         end.
Qed.

End IsoDates.

(* ------------------------------------------------------------------ *)
(** ** Fetching and exporting *)

Section FetchAndExport.

(** C7: on every table, [fetch_transactions] returns, leaves the table
    alone, and yields exactly the stored rows, earlier dates first and rows
    of one date in rowid (insertion) order; an empty table gives the empty
    sequence.  Dates are compared as the texts stored in [trans_date],
    which for the ISO texts the forms write is the calendar order. *)
Theorem fetch_transactions_sorted_by_date (s : store) :
  wf s = true ->
  exists df,
    fetch_transactions s = Returned df s /\
    Permutation df (table s) /\
    StronglySorted date_le df /\
    StronglySorted fetched_before df /\
    (table s = [] -> df = []) /\
    (forall (a b : row) (da db : Py.date),
       In a df -> In b df ->
       Py.date_ok da = true -> Py.date_ok db = true ->
       trans_date a = Py.str_of_date da ->
       trans_date b = Py.str_of_date db ->
       text_compare (trans_date a) (trans_date b) = Py.date_compare da db).
Proof.
  intros H; exists (select_all_ordered s); unfold select_all_ordered.
  split; [reflexivity|].
  split; [apply order_by_perm|].
  split; [apply order_by_sorted|].
  split; [exact (order_by_fetched 0 (table s) H)|].
  split; [now intros ->|].
  intros a b da db _ _ Ha Hb -> ->; now apply iso_text_compare.
Qed.

Lemma fetch_transactions_sorted_by_date_witness :
  wf tied_dates = true /\
  map id (table tied_dates) = [1; 2; 3]%Z /\
  exists df,
    fetch_transactions tied_dates = Returned df tied_dates /\
    map id df = [2; 1; 3]%Z /\
    map trans_date df
      = map Py.lit ["2024-01-01"; "2024-01-02"; "2024-01-02"]%string /\
    StronglySorted fetched_before df /\
    text_compare (Py.lit "2024-01-01") (Py.lit "2024-01-02")
      = Py.date_compare (Py.mkdate 2024 1 1) (Py.mkdate 2024 1 2).
Proof.
  split; [vm_compute; reflexivity|]; split; [vm_compute; reflexivity|].
  destruct (fetch_transactions_sorted_by_date tied_dates eq_refl)
    as (df & Hrun & _ & _ & Hs & _ & Hiso).
  exists df; split; [exact Hrun|].
  assert (E : match fetch_transactions tied_dates with
              | Returned a _ => a
              | Raised _ _ => []
              end = df) by (rewrite Hrun; reflexivity).
  cbv beta iota delta [fetch_transactions] in E.
  assert (S : select_all_ordered tied_dates
              = [mkrow 2 (Py.lit "2024-01-01") (Py.lit "Early") 5 0 5;
                 mkrow 1 (Py.lit "2024-01-02") (Py.lit "First") 10 0 15;
                 mkrow 3 (Py.lit "2024-01-02") (Py.lit "Second") 20 0 35])
    by (vm_compute; reflexivity).
  rewrite S in E; subst df.
  split; [reflexivity|]; split; [reflexivity|]; split; [exact Hs|].
  apply (Hiso (mkrow 2 (Py.lit "2024-01-01") (Py.lit "Early") 5 0 5)
              (mkrow 1 (Py.lit "2024-01-02") (Py.lit "First") 10 0 15)
              (Py.mkdate 2024 1 1) (Py.mkdate 2024 1 2));
    try reflexivity; simpl; auto.
Defined.

Lemma body_rows_no_index (i : Z) (df : DataFrame) :
  body_rows false i df = map cells df.
Proof.
  revert i; induction df as [|r df IH]; intros i; simpl; [reflexivity|].
  now rewrite IH.
Qed.

(** C8: for every frame, [export_to_excel] returns a buffer, rewound to its
    start, that holds one sheet named "Transactions": a header row naming
    the columns id, trans_date, description, income, expenses, balance in
    that order, and then one row for each transaction, in the order of the
    frame, with its values in these columns. *)
Theorem export_to_excel_sheet (df : DataFrame) :
  export_to_excel df
    = Xl.mkbuf
        [Xl.mksheet (Py.lit "Transactions")
           (map Xl.Text
              (map Py.lit ["id"; "trans_date"; "description"; "income";
                           "expenses"; "balance"]%string)
            :: map (fun r =>
                      [Xl.Int (id r); Xl.Text (trans_date r);
                       Xl.Text (description r); Xl.Real (income r);
                       Xl.Real (expenses r); Xl.Real (balance r)]) df)]
        Xl.AtStart /\
  map (fun sh => List.length (Xl.rows sh))
      (Xl.written (export_to_excel df))
    = [S (List.length df)].
Proof.
  unfold export_to_excel, to_excel; simpl.
  rewrite body_rows_no_index, length_map.
  split; reflexivity.
Qed.

End FetchAndExport.

(* ------------------------------------------------------------------ *)
(** ** The worked scenario *)

Section Scenario.

(** C6: from the empty table, adding (2024-01-01, "Opening", 100, 0) gives
    balance 100; adding (2024-01-02, "Rent", 0, 40) gives balances
    100, 60; editing the first record's income to 200 gives 200, 160;
    deleting the second record gives 200.  Each step ends in its success
    message, the balances are those shown and those stored, and the export
    of the last frame is a header and one row with balance 200. *)
Theorem concrete_scenario :
  said scenario_step1 = Some (success "Transaction added successfully!") /\
  said scenario_step2 = Some (success "Transaction added successfully!") /\
  said scenario_step3
    = Some (Some (success "Transaction updated successfully!")) /\
  said scenario_step4
    = Some (Some (success "Transaction deleted successfully!")) /\
  map balance (shown scenario_step1) = [100]%float /\
  map balance (select_all_ordered (final_store scenario_step1)) = [100]%float /\
  map balance (shown scenario_step2) = [100; 60]%float /\
  map balance (select_all_ordered (final_store scenario_step2)) = [100; 60]%float /\
  map income (shown scenario_step3) = [200; 0]%float /\
  map balance (shown scenario_step3) = [200; 160]%float /\
  map balance (select_all_ordered (final_store scenario_step3)) = [200; 160]%float /\
  map id (shown scenario_step4) = [1]%Z /\
  map balance (shown scenario_step4) = [200]%float /\
  map balance (select_all_ordered (final_store scenario_step4)) = [200]%float /\
  Xl.written (export_to_excel (shown scenario_step4))
    = [Xl.mksheet (Py.lit "Transactions")
         [map Xl.Text columns;
          [Xl.Int 1; Xl.Text (Py.lit "2024-01-01");
           Xl.Text (Py.lit "Opening"); Xl.Real 200; Xl.Real 0;
           Xl.Real 200]]].
Proof. repeat split; vm_compute; reflexivity. Qed.

End Scenario.

(* ------------------------------------------------------------------ *)
(** ** Deleting a row and recalculating *)

Section DeleteAndRecalc.

Lemma ids_ascending_lower (lo lo' : Z) (l : list row) :
  (lo' <= lo)%Z ->
  ids_ascending_from lo l = true -> ids_ascending_from lo' l = true.
Proof.
  destruct l as [|r l]; simpl; [reflexivity|].
  intros Hlo H; apply andb_prop in H; destruct H as [H1 H2].
  apply Z.ltb_lt in H1; rewrite H2, andb_true_r.
  apply Z.ltb_lt; lia.
Qed.

Lemma ids_ascending_filter (p : row -> bool) (lo : Z) (l : list row) :
  ids_ascending_from lo l = true ->
  ids_ascending_from lo (filter p l) = true.
Proof.
  revert lo; induction l as [|r l IH]; intros lo; simpl; [reflexivity|].
  intros H; apply andb_prop in H; destruct H as [H1 H2].
  destruct (p r); simpl.
  - rewrite H1; simpl; now apply IH.
  - apply IH; apply Z.ltb_lt in H1.
    apply (ids_ascending_lower (id r)); [lia|exact H2].
Qed.

Lemma ids_ascending_same_ids (lo : Z) (l l' : list row) :
  map id l = map id l' ->
  ids_ascending_from lo l = ids_ascending_from lo l'.
Proof.
  revert lo l'; induction l as [|r l IH]; intros lo [|r' l']; simpl;
    try discriminate; [reflexivity|].
  intros H; injection H as -> H; f_equal; auto.
Qed.

Lemma frame_ids (l l' : list row) :
  map frame l = map frame l' -> map id l = map id l'.
Proof.
  intros H; apply (f_equal (map (fun t => fst (fst (fst (fst t)))))) in H.
  now rewrite !map_map in H.
Qed.

Lemma wf_delete (row_id : Z) (s : store) :
  wf s = true -> wf (delete row_id s) = true.
Proof. apply ids_ascending_filter. Qed.

Lemma wf_persist (df : DataFrame) (s : store) :
  wf (persist df s) = wf s.
Proof. apply ids_ascending_same_ids, frame_ids, persist_frame. Qed.

Lemma filter_same_frame (i : Z) (l l' : list row) :
  map frame l = map frame l' ->
  map frame (filter (fun r => negb (id r =? i)%Z) l)
  = map frame (filter (fun r => negb (id r =? i)%Z) l').
Proof.
  revert l'; induction l as [|r l IH]; intros [|r' l']; simpl;
    try discriminate; [reflexivity|].
  unfold frame at 1 3; intros H; injection H as E1 E2 E3 E4 E5 H.
  rewrite E1; destruct (id r' =? i)%Z; simpl; auto.
  unfold frame at 1 3; rewrite E1, E2, E3, E4, E5; f_equal; auto.
Qed.

Lemma filter_drops_the_row (pre post : list row) (r : row) :
  NoDup (map id (pre ++ r :: post)) ->
  filter (fun x => negb (id x =? id r)%Z) (pre ++ r :: post) = pre ++ post.
Proof.
  intros Hn; rewrite filter_app; simpl; rewrite Z.eqb_refl; simpl.
  rewrite map_app in Hn; simpl in Hn.
  pose proof (NoDup_remove_2 _ _ _ Hn) as Hr.
  assert (K : forall l, (forall x, In x l -> id x <> id r) ->
                        filter (fun x => negb (id x =? id r)%Z) l = l).
  { induction l as [|x l IH]; intros Hl; simpl; [reflexivity|].
    destruct (Z.eqb_spec (id x) (id r)) as [E|_]; simpl.
    - exfalso; apply (Hl x); [now left|exact E].
    - f_equal; apply IH; intros; apply Hl; now right. }
  rewrite !K; [reflexivity| |];
    intros x Hx E; apply Hr, in_or_app; [right|left];
    rewrite <- E; now apply in_map.
Qed.

Lemma has_id_same_ids (i : Z) (s s' : store) :
  map id (table s) = map id (table s') -> has_id i s = has_id i s'.
Proof.
  unfold has_id; generalize (table s), (table s').
  induction l as [|r l IH]; intros [|r' l']; simpl; try discriminate;
    [reflexivity|].
  intros H; injection H as -> H; f_equal; auto.
Qed.

(** C5, as the specification states it, fails in binary floating point:
    with sales of 0.1, 0.2 and 0.3 stored, deleting the first one (net 0.1)
    takes the last balance from 0.60000000000000009 to 0.5, and the second
    from 0.30000000000000004 to 0.2; neither moved by exactly 0.1. *)
Lemma delete_shift_counterexample :
  let before := final_store (refetch_and_recalc three_sales) in
  let after := final_store (delete_and_recalc 1 before) in
  wf before = true /\
  map amounts (select_all_ordered before)
    = [(0.1, 0); (0.2, 0); (0.3, 0)]%float /\
  map balance (select_all_ordered before)
    = [0.1; 0.30000000000000004; 0.60000000000000009]%float /\
  map id (select_all_ordered after) = [2; 3]%Z /\
  map balance (select_all_ordered after) = [0.2; 0.5]%float /\
  (0.60000000000000009 - (0.1 - 0))%float <> 0.5%float /\
  (0.5 + (0.1 - 0))%float <> 0.60000000000000009%float /\
  (0.60000000000000009 - 0.5)%float <> (0.1 - 0)%float /\
  (0.30000000000000004 - (0.1 - 0))%float <> 0.2%float.
Proof.
  repeat split; try (vm_compute; reflexivity);
    apply float_neq; vm_compute; reflexivity.
Qed.

(** C5, amended: let the stored sequence be [pre], then [r], then [post],
    with balances as the pass leaves them.  Deleting [r] and running the
    pass removes [r] and nothing else; the rows of [pre] keep their
    balances; the rows of [post] get the running total continued from the
    balance of the last row of [pre] (from 0 when [pre] is empty), where
    before they had it continued from that balance plus
    [income(r) - expenses(r)].  The table afterwards holds exactly these
    rows. *)
Theorem delete_then_recalc (s : store) (pre post : DataFrame) (r : row) :
  wf s = true ->
  select_all_ordered s = pre ++ r :: post ->
  let b_pre := balance_after 0 pre in
  let b_r := (b_pre + (income r - expenses r))%float in
  exists df1 s1 df2 s2,
    refetch_and_recalc s = Returned df1 s1 /\
    select_all_ordered s1 = df1 /\
    map frame df1 = map frame (pre ++ r :: post) /\
    map balance df1
      = running_from 0 pre ++ b_r :: running_from b_r post /\
    delete_and_recalc (id r) s1 = Returned df2 s2 /\
    select_all_ordered s2 = df2 /\
    has_id (id r) s2 = false /\
    map frame df2 = map frame (pre ++ post) /\
    map balance df2 = running_from 0 pre ++ running_from b_pre post.
Proof.
  intros Hwf Hsel b_pre b_r.
  set (df1 := recalc_rows 0 (select_all_ordered s)).
  set (s1 := persist df1 s).
  set (s1' := delete (id r) s1).
  set (df2 := recalc_rows 0 (select_all_ordered s1')).
  exists df1, s1, df2, (persist df2 s1').
  assert (R1 : select_all_ordered s1 = df1)
    by (apply refetch_after_recalc; exact Hwf).
  assert (W1 : wf s1' = true).
  { apply wf_delete; unfold s1; now rewrite wf_persist. }
  assert (F1 : map frame df1 = map frame (pre ++ r :: post)).
  { unfold df1; now rewrite recalc_rows_frame, Hsel. }
  assert (F2 : map frame (select_all_ordered s1') = map frame (pre ++ post)).
  { unfold s1', select_all_ordered, delete; simpl.
    rewrite order_by_filter.
    fold (select_all_ordered s1); rewrite R1.
    rewrite (filter_same_frame (id r) df1 (pre ++ r :: post) F1).
    rewrite filter_drops_the_row; [reflexivity|].
    rewrite <- Hsel; now apply fetched_ids_nodup. }
  split; [apply refetch_and_recalc_run|].
  split; [exact R1|].
  split; [exact F1|].
  split.
  { unfold df1; rewrite recalc_rows_balance, Hsel, running_from_app.
    reflexivity. }
  split.
  { unfold delete_and_recalc, delete_transaction, bind, execute, commit, ret.
    apply refetch_and_recalc_run. }
  split; [apply refetch_after_recalc; exact W1|].
  split.
  { rewrite (has_id_same_ids (id r) (persist df2 s1') s1')
      by apply frame_ids, persist_frame.
    apply has_id_after_delete. }
  split; [unfold df2; now rewrite recalc_rows_frame|].
  unfold df2.
  rewrite (recalc_rows_same_frame 0 _ _ F2), recalc_rows_balance.
  apply running_from_app.
Qed.

Lemma delete_then_recalc_witness :
  wf three_sales = true /\
  exists r1 r2 r3,
    select_all_ordered three_sales = [r1] ++ r2 :: [r3] /\
    exists df2 s2,
      delete_and_recalc 2 (final_store (refetch_and_recalc three_sales))
        = Returned df2 s2 /\
      map balance df2 = [0.1; 0.4]%float.
Proof.
  split; [vm_compute; reflexivity|].
  set (r1 := mkrow 1 (Py.lit "2024-01-01") (Py.lit "Sale") 0.1 0 0.1).
  set (r2 := mkrow 2 (Py.lit "2024-01-02") (Py.lit "Sale") 0.2 0
                   0.30000000000000004).
  set (r3 := mkrow 3 (Py.lit "2024-01-03") (Py.lit "Sale") 0.3 0
                   0.60000000000000009).
  assert (E : select_all_ordered three_sales = [r1] ++ r2 :: [r3])
    by (vm_compute; reflexivity).
  exists r1, r2, r3; split; [exact E|].
  destruct (delete_then_recalc three_sales [r1] [r3] r2 eq_refl E)
    as (df1 & s1 & df2 & s2 & H1 & _ & _ & _ & H2 & _ & _ & _ & H3).
  exists df2, s2.
  assert (E1 : final_store (refetch_and_recalc three_sales) = s1)
    by (rewrite H1; reflexivity).
  rewrite E1; split; [exact H2|].
  rewrite H3; vm_compute; reflexivity.
Defined.

End DeleteAndRecalc.

(* ------------------------------------------------------------------ *)
(** ** The key invariant is kept by every statement *)

Section KeyInvariant.

Lemma wf_empty : wf empty = true.
Proof. reflexivity. Qed.

Lemma ids_ascending_snoc (lo : Z) (l : list row) (r : row) :
  ids_ascending_from lo l = true ->
  (Z.max lo (max_id l) < id r)%Z ->
  ids_ascending_from lo (l ++ [r]) = true.
Proof.
  revert lo; induction l as [|x l IH]; intros lo; simpl.
  - intros _ H; rewrite andb_true_r; apply Z.ltb_lt; lia.
  - intros H Hr; apply andb_prop in H; destruct H as [H1 H2].
    rewrite H1; simpl; apply IH; [exact H2|].
    fold (max_id l) in *; lia.
Qed.

Lemma max_id_nonneg (l : list row) : (0 <= max_id l)%Z.
Proof. induction l; simpl; lia. Qed.

Lemma wf_insert (d desc : Py.str) (inc exp bal : float) (s : store) :
  wf s = true -> wf (insert d desc inc exp bal s) = true.
Proof.
  unfold wf, insert; simpl; intros H.
  apply ids_ascending_snoc; [exact H|]; simpl.
  pose proof (max_id_nonneg (table s)); lia.
Qed.

Lemma wf_update (d desc : Py.str) (inc exp : float) (row_id : Z)
  (s : store) :
  wf (update d desc inc exp row_id s) = wf s.
Proof.
  unfold wf, update; simpl.
  apply ids_ascending_same_ids; rewrite map_map.
  apply map_ext; intros r; now destruct (id r =? row_id)%Z.
Qed.

(** Every form action leaves a table that satisfies the invariant. *)
Lemma wf_add_transaction (d desc : Py.str) (inc exp : float) (s : store) :
  wf s = true ->
  wf (final_store (add_transaction d desc inc exp s)) = true.
Proof. rewrite add_transaction_run; simpl; apply wf_insert. Qed.

Lemma wf_refetch_and_recalc (s : store) :
  wf s = true -> wf (final_store (refetch_and_recalc s)) = true.
Proof. rewrite refetch_and_recalc_run; simpl; now rewrite wf_persist. Qed.

End KeyInvariant.

(* ------------------------------------------------------------------ *)
(** ** The selector: from a row to its entry and back *)

Section Selector.

Lemma digit_cases (n : Z) :
  exists k, (0 <= k < 10)%Z /\ (n mod 10 = k)%Z /\
            Py.digit n = (48 + Z.to_N k)%N.
Proof.
  exists (n mod 10)%Z; repeat split; try reflexivity;
    apply Z.mod_pos_bound; lia.
Qed.

Lemma digit_is_digit (n : Z) : is_digit (Py.digit n).
Proof.
  destruct (digit_cases n) as (k & Hk & _ & ->); unfold is_digit; lia.
Qed.

Lemma digit_value_digit (n : Z) :
  Txt.digit_value (Py.digit n) = Some (n mod 10)%Z.
Proof.
  destruct (digit_cases n) as (k & Hk & -> & ->); unfold Txt.digit_value.
  replace ((48 <=? 48 + Z.to_N k) && (48 + Z.to_N k <=? 57))%N with true.
  - f_equal; lia.
  - symmetry; apply andb_true_intro; split; apply N.leb_le; lia.
Qed.

Lemma is_digit_enum (c : N) :
  is_digit c ->
  (c = 48 \/ c = 49 \/ c = 50 \/ c = 51 \/ c = 52 \/ c = 53 \/ c = 54 \/
   c = 55 \/ c = 56 \/ c = 57)%N.
Proof. unfold is_digit; lia. Qed.

Lemma is_digit_not_space (c : N) : is_digit c -> Py.isspace c = false.
Proof.
  intros H; apply is_digit_enum in H.
  repeat destruct H as [-> | H]; try subst c; reflexivity.
Qed.

(** The digits written are digits, there is at least one, and reading
    them back goes on from [10^k * a + n]. *)
Lemma digits_shape (f : nat) (n : Z) (acc : Py.str) :
  exists d ds,
    Txt.digits f n acc = d :: ds ++ acc /\ is_digit d /\ Forall is_digit ds.
Proof.
  revert n acc; induction f as [|f IH]; intros n acc; simpl.
  - exists (Py.digit n), []; split; [reflexivity|].
    split; [apply digit_is_digit | constructor].
  - destruct (n <? 10)%Z.
    + exists (Py.digit n), []; split; [reflexivity|].
      split; [apply digit_is_digit | constructor].
    + destruct (IH (n / 10)%Z (Py.digit n :: acc)) as (d & ds & E & Hd & Hds).
      exists d, (ds ++ [Py.digit n]); rewrite E, <- app_assoc.
      split; [reflexivity|]; split; [exact Hd|].
      apply Forall_app; split; [exact Hds|].
      constructor; [apply digit_is_digit | constructor].
Qed.

Lemma digits_parse (f : nat) (n : Z) (acc : Py.str) :
  (0 <= n < 2 ^ Z.of_nat (S f))%Z ->
  exists m, forall a flag,
    Txt.parse_digits a flag (Txt.digits f n acc)
    = Txt.parse_digits (a * m + n) true acc.
Proof.
  revert n acc; induction f as [|f IH]; intros n acc Hn.
  - exists 10%Z; intros a flag; simpl.
    rewrite digit_value_digit, Z.mod_small; [reflexivity|].
    change (2 ^ Z.of_nat 1)%Z with 2%Z in Hn; lia.
  - simpl Txt.digits; destruct (Z.ltb_spec n 10).
    + exists 10%Z; intros a flag; simpl.
      rewrite digit_value_digit, Z.mod_small; [reflexivity|lia].
    + destruct (IH (n / 10)%Z (Py.digit n :: acc)) as [m Hm].
      { split; [apply Z.div_pos; lia|].
        apply Z.div_lt_upper_bound; [lia|].
        rewrite Nat2Z.inj_succ, Z.pow_succ_r in Hn by lia.
        lia. }
      exists (m * 10)%Z; intros a flag.
      rewrite Hm; simpl; rewrite digit_value_digit.
      f_equal; pose proof (Z.div_mod n 10 ltac:(lia)); lia.
Qed.

Lemma log2_fuel (n : Z) :
  (0 <= n)%Z -> (0 <= n < 2 ^ Z.of_nat (S (Z.to_nat (Z.log2 n))))%Z.
Proof.
  intros Hn; split; [exact Hn|].
  rewrite Nat2Z.inj_succ, Z2Nat.id by apply Z.log2_nonneg.
  destruct (Z.eq_dec n 0) as [->|Hz]; [reflexivity|].
  apply Z.log2_spec; lia.
Qed.

Lemma strip_no_space (s : Py.str) :
  Forall (fun c => Py.isspace c = false) s -> Py.strip s = s.
Proof.
  intros H; unfold Py.strip, Py.rstrip.
  assert (L : forall l, Forall (fun c => Py.isspace c = false) l ->
                        Py.lstrip l = l).
  { intros [|c l] Hl; simpl; [reflexivity|].
    inversion Hl as [|? ? Hc _]; subst; now rewrite Hc. }
  rewrite (L s H), L, rev_involutive; [reflexivity|].
  now apply Forall_rev.
Qed.

Lemma int_of_unsigned (d : N) (t : Py.str) :
  is_digit d -> Forall is_digit t ->
  Txt.int_of (d :: t) = Txt.parse_digits 0 false (d :: t).
Proof.
  intros Hd Ht; unfold Txt.int_of.
  rewrite strip_no_space.
  - apply is_digit_enum in Hd.
    repeat destruct Hd as [-> | Hd]; try subst d; reflexivity.
  - constructor; [now apply is_digit_not_space|].
    eapply Forall_impl; [|exact Ht]; apply is_digit_not_space.
Qed.

Lemma int_of_negative (d : N) (t : Py.str) :
  is_digit d -> Forall is_digit t ->
  Txt.int_of (45%N :: d :: t)
  = option_map Z.opp (Txt.parse_digits 0 false (d :: t)).
Proof.
  intros Hd Ht; unfold Txt.int_of.
  rewrite strip_no_space; [reflexivity|].
  constructor; [reflexivity|].
  constructor; [now apply is_digit_not_space|].
  eapply Forall_impl; [|exact Ht]; apply is_digit_not_space.
Qed.

Lemma int_of_of_int (z : Z) : Txt.int_of (Txt.of_int z) = Some z.
Proof.
  unfold Txt.of_int.
  destruct (Z.ltb_spec z 0) as [Hz|Hz].
  - destruct (digits_shape (Z.to_nat (Z.log2 (- z))) (- z) [])
      as (d & ds & E & Hd & Hds).
    destruct (digits_parse _ (- z) [] (log2_fuel (- z) ltac:(lia)))
      as [m Hm].
    rewrite E, app_nil_r, int_of_negative by assumption.
    rewrite <- (app_nil_r ds), <- E, Hm; simpl; f_equal; lia.
  - destruct (digits_shape (Z.to_nat (Z.log2 z)) z [])
      as (d & ds & E & Hd & Hds).
    destruct (digits_parse _ z [] (log2_fuel z Hz)) as [m Hm].
    rewrite E, app_nil_r, int_of_unsigned by assumption.
    rewrite <- (app_nil_r ds), <- E, Hm; simpl; f_equal.
Qed.

Lemma of_int_no_colon (z : Z) : Forall (fun c => c <> 58%N) (Txt.of_int z).
Proof.
  assert (D : forall c, is_digit c -> c <> 58%N)
    by (unfold is_digit; intros; lia).
  assert (K : forall f n, Forall (fun c => c <> 58%N) (Txt.digits f n [])).
  { intros f n; destruct (digits_shape f n []) as (d & ds & E & Hd & Hds).
    rewrite E, app_nil_r; constructor; [auto|].
    eapply Forall_impl; [|exact Hds]; auto. }
  unfold Txt.of_int; destruct (z <? 0)%Z; [constructor; [lia|]|]; apply K.
Qed.

Lemma split_first_piece (sep : N) (p rest : Py.str) :
  Forall (fun c => c <> sep) p ->
  Txt.split sep (p ++ sep :: rest) = p :: Txt.split sep rest.
Proof.
  induction 1 as [|c p Hc Hp IH]; simpl.
  - now rewrite N.eqb_refl.
  - apply N.eqb_neq in Hc; rewrite Hc, IH; reflexivity.
Qed.

Lemma label_round_trip (float_str : float -> Py.str) (r : row) (s : store) :
  selected_row_id (option_label float_str r) s = Returned (id r) s.
Proof.
  unfold selected_row_id, option_label, bind.
  change (Py.lit ": ") with [58%N; 32%N]; simpl app.
  rewrite (split_first_piece 58 (Txt.of_int (id r)))
    by apply of_int_no_colon.
  unfold first_piece, ret, py_int; now rewrite int_of_of_int.
Qed.

(** X1: an integer printed and read back is the same integer, and so,
    whatever the row holds and however floats are printed, the id read
    back from a selector entry is the id of the row the entry was made
    for; colons in the description or elsewhere do not matter, and
    nothing is raised or written on the way. *)
Theorem selected_row_id_of_label (float_str : float -> Py.str) (r : row)
  (s : store) :
  (forall z : Z, Txt.int_of (Txt.of_int z) = Some z) /\
  Txt.split 58 (option_label float_str r)
    = Txt.of_int (id r)
      :: Txt.split 58
           (32%N :: trans_date r ++ Py.lit " | " ++ description r
              ++ Py.lit " | Income: " ++ float_str (income r)
              ++ Py.lit " | Expenses: " ++ float_str (expenses r)) /\
  selected_row_id (option_label float_str r) s = Returned (id r) s.
Proof.
  split; [exact int_of_of_int|]; split; [|apply label_round_trip].
  unfold option_label.
  change (Py.lit ": ") with [58%N; 32%N]; simpl app.
  apply split_first_piece, of_int_no_colon.
Qed.

End Selector.

(* ------------------------------------------------------------------ *)
(** ** Looking the selected row up *)

Section Lookup.

Lemma filter_by_unique_id (df : DataFrame) (r : row) :
  NoDup (map id df) -> In r df ->
  filter (fun x => (id x =? id r)%Z) df = [r].
Proof.
  induction df as [|x df IH]; intros Hn Hin; simpl in *; [contradiction|].
  inversion Hn as [|? ? Hx Hn']; subst.
  assert (K : forall l, ~ In (id r) (map id l) ->
                        filter (fun x => (id x =? id r)%Z) l = []).
  { induction l as [|y l IHl]; intros Hl; simpl in *; [reflexivity|].
    destruct (Z.eqb_spec (id y) (id r)); [tauto|apply IHl; tauto]. }
  destruct Hin as [->|Hin].
  - rewrite Z.eqb_refl, K; auto.
  - destruct (Z.eqb_spec (id x) (id r)) as [E|_]; [|auto].
    exfalso; apply Hx; rewrite E; now apply in_map.
Qed.

Lemma row_data_found (df : DataFrame) (r : row) (s : store) :
  NoDup (map id df) -> In r df -> row_data df (id r) s = Returned r s.
Proof.
  intros Hn Hin; unfold row_data.
  now rewrite filter_by_unique_id.
Qed.

Lemma row_data_missing (df : DataFrame) (row_id : Z) (s : store) :
  in_frame row_id df = false ->
  row_data df row_id s = Raised Py.IndexError s.
Proof.
  unfold in_frame, row_data; intros H.
  replace (filter (fun r => (id r =? row_id)%Z) df) with (@nil row);
    [reflexivity|].
  induction df as [|x df IH]; simpl in *; [reflexivity|].
  apply orb_false_elim in H; destruct H as [H1 H2].
  rewrite H1; auto.
Qed.

Lemma row_data_present (df : DataFrame) (row_id : Z) (s : store) :
  in_frame row_id df = true ->
  exists r, row_data df row_id s = Returned r s /\ id r = row_id /\ In r df.
Proof.
  unfold in_frame, row_data; intros H.
  apply existsb_exists in H; destruct H as (x & Hx & E).
  assert (Hin : In x (filter (fun r => (id r =? row_id)%Z) df))
    by (apply filter_In; auto).
  destruct (filter _ df) as [|r l] eqn:F; [contradiction|].
  exists r; split; [reflexivity|].
  assert (Hr : In r (filter (fun r => (id r =? row_id)%Z) df))
    by (rewrite F; now left).
  apply filter_In in Hr; destruct Hr as [Hr1 Hr2].
  apply Z.eqb_eq in Hr2; auto.
Qed.

Lemma labels_distinct (float_str : float -> Py.str) (df : DataFrame) :
  NoDup (map id df) -> NoDup (selector_options float_str df).
Proof.
  intros Hn; unfold selector_options.
  apply (NoDup_map_inv
           (fun l => match selected_row_id l empty with
                     | Returned z _ => z
                     | Raised _ _ => 0%Z
                     end)).
  rewrite map_map.
  erewrite map_ext; [exact Hn|].
  intros r; simpl; now rewrite label_round_trip.
Qed.

(** X2: as long as rowids are unique, the entries offered by the selector
    are pairwise different, and choosing the entry of a row and looking
    its id up in the frame gives back exactly that row. *)
Theorem selected_entry_finds_its_row (float_str : float -> Py.str)
  (s : store) (r : row) :
  wf s = true ->
  In r (select_all_ordered s) ->
  NoDup (selector_options float_str (select_all_ordered s)) /\
  (row_id <- selected_row_id (option_label float_str r) ;;
   row_data (select_all_ordered s) row_id) s = Returned r s.
Proof.
  intros Hwf Hin; split.
  - now apply labels_distinct, fetched_ids_nodup.
  - unfold bind; rewrite label_round_trip.
    apply row_data_found; [now apply fetched_ids_nodup|exact Hin].
Qed.

Lemma selected_entry_finds_its_row_witness :
  wf tied_dates = true /\
  In (mkrow 1 (Py.lit "2024-01-02") (Py.lit "First") 10 0 15)
     (select_all_ordered tied_dates) /\
  (row_id <- selected_row_id
               (option_label (fun _ => Py.lit "10.0")
                  (mkrow 1 (Py.lit "2024-01-02") (Py.lit "First") 10 0 15)) ;;
   row_data (select_all_ordered tied_dates) row_id) tied_dates
  = Returned (mkrow 1 (Py.lit "2024-01-02") (Py.lit "First") 10 0 15)
             tied_dates.
Proof.
  assert (Hin : In (mkrow 1 (Py.lit "2024-01-02") (Py.lit "First") 10 0 15)
                   (select_all_ordered tied_dates))
    by (vm_compute; auto).
  split; [reflexivity|]; split; [exact Hin|].
  apply (selected_entry_finds_its_row (fun _ => Py.lit "10.0") tied_dates
           _ eq_refl Hin).
Defined.

End Lookup.

(* ------------------------------------------------------------------ *)
(** ** What the pass leaves behind *)

Section Pass.

Lemma pass_run (s : store) :
  refetch_and_recalc s = Returned (pass_frame s) (pass_store s).
Proof. apply refetch_and_recalc_run. Qed.

Lemma pass_select (s : store) :
  wf s = true -> select_all_ordered (pass_store s) = pass_frame s.
Proof. apply refetch_after_recalc. Qed.

Lemma wf_pass (s : store) : wf (pass_store s) = wf s.
Proof. apply wf_persist. Qed.

Lemma frame_amounts (l l' : list row) :
  map frame l = map frame l' ->
  map income l = map income l' /\ map expenses l = map expenses l'.
Proof.
  intros H; split.
  - apply (f_equal (map (fun t => snd (fst t)))) in H.
    now rewrite !map_map in H.
  - apply (f_equal (map (fun t => snd t))) in H.
    now rewrite !map_map in H.
Qed.

Lemma recalc_rows_fixed (b : float) (df : DataFrame) :
  map balance df = running_from b df -> recalc_rows b df = df.
Proof.
  revert b; induction df as [|r df IH]; intros b; simpl; [reflexivity|].
  intros H; injection H as H1 H2.
  rewrite <- H1 in *; rewrite with_balance_same; f_equal; auto.
Qed.

Lemma consistent_fixed (s : store) :
  consistent s -> pass_frame s = select_all_ordered s.
Proof. apply recalc_rows_fixed. Qed.

Lemma pass_consistent (s : store) : wf s = true -> consistent (pass_store s).
Proof.
  intros H; unfold consistent; rewrite pass_select by exact H.
  unfold pass_frame; rewrite recalc_rows_balance.
  destruct (frame_amounts _ _ (recalc_rows_frame 0 (select_all_ordered s))).
  symmetry; now apply running_from_amounts.
Qed.

Lemma persist_rows_fixed (df : DataFrame) (t : list row) :
  NoDup (map id df) -> incl t df ->
  map (fun r => with_balance r (last_balance_for (id r) df (balance r))) t
  = t.
Proof.
  intros Hn Hin; rewrite <- (map_id t) at 2.
  apply map_ext_in; intros r Hr.
  rewrite last_balance_for_unique; auto using with_balance_same.
Qed.

Lemma pass_fixed (s : store) :
  wf s = true -> consistent s -> pass_store s = s.
Proof.
  intros Hwf Hc; unfold pass_store.
  rewrite (consistent_fixed s Hc).
  pose proof (persist_seq (select_all_ordered s) s) as Q.
  pose proof (persist_table (select_all_ordered s) s) as T.
  rewrite persist_rows_fixed in T.
  - destruct (persist _ s), s; simpl in *; congruence.
  - now apply fetched_ids_nodup.
  - intros r Hr.
    apply (Permutation_in _ (Permutation_sym (order_by_perm (table s)))), Hr.
Qed.

(** X3: on a table with unique rowids whose balances are the running
    totals of the stored sequence, the pass is a no-op: it returns the
    stored sequence as it is and writes nothing new. *)
Theorem pass_changes_nothing_when_current (s : store) :
  wf s = true -> consistent s ->
  refetch_and_recalc s = Returned (select_all_ordered s) s.
Proof.
  intros Hwf Hc.
  now rewrite pass_run, pass_fixed, consistent_fixed.
Qed.

Lemma pass_changes_nothing_when_current_witness :
  wf three_sales = true /\ consistent three_sales /\
  refetch_and_recalc three_sales
  = Returned (select_all_ordered three_sales) three_sales.
Proof.
  assert (C : consistent three_sales) by (vm_compute; reflexivity).
  split; [reflexivity|]; split; [exact C|].
  exact (pass_changes_nothing_when_current three_sales eq_refl C).
Defined.

End Pass.

(* ------------------------------------------------------------------ *)
(** ** The add form *)

Section AddForm.

Lemma lstrip_blank (s : Py.str) :
  forallb Py.isspace s = true -> Py.lstrip s = [].
Proof.
  induction s as [|c s IH]; simpl; [reflexivity|].
  intros H; apply andb_prop in H; destruct H as [H1 H2].
  rewrite H1; auto.
Qed.

Lemma lstrip_not_blank (s : Py.str) :
  forallb Py.isspace s = false ->
  exists c t, Py.lstrip s = c :: t /\ Py.isspace c = false.
Proof.
  induction s as [|c s IH]; simpl; [discriminate|].
  destruct (Py.isspace c) eqn:E; simpl; [exact IH|].
  intros _; exists c, s; auto.
Qed.

Lemma forallb_rev {A} (p : A -> bool) (l : list A) :
  forallb p (rev l) = forallb p l.
Proof.
  induction l as [|x l IH]; simpl; [reflexivity|].
  rewrite forallb_app, IH; simpl.
  rewrite andb_true_r; apply andb_comm.
Qed.

(** A description fails the check exactly when it is made of whitespace
    only (the empty one included). *)
Lemma strip_blank (s : Py.str) :
  Py.truthy (Py.strip s) = negb (forallb Py.isspace s).
Proof.
  unfold Py.strip, Py.rstrip.
  destruct (forallb Py.isspace s) eqn:E.
  - now rewrite (lstrip_blank s E).
  - destruct (lstrip_not_blank s E) as (c & t & -> & Hc).
    assert (E' : forallb Py.isspace (rev (c :: t)) = false)
      by (rewrite forallb_rev; simpl; now rewrite Hc).
    destruct (lstrip_not_blank _ E') as (c' & t' & -> & _).
    simpl; destruct (rev t'); reflexivity.
Qed.

Lemma added_run (d desc : Py.str) (inc exp : float) (s : store) :
  add_transaction d desc inc exp s = Returned tt (added d desc inc exp s).
Proof. apply add_transaction_run. Qed.

Lemma submit_add_form_eq (trans_date : Py.date) (desc : Py.str)
  (inc exp : float) (df : DataFrame) (s : store) :
  submit_add_form trans_date desc inc exp df s
  = if forallb Py.isspace desc then
      Returned (df, warning "Please enter a description.") s
    else if PrimFloat.eqb inc 0 && PrimFloat.eqb exp 0 then
      Returned (df, warning
                      "Either Income or Expenses must be greater than 0.") s
    else
      Returned
        (pass_frame (added (Py.str_of_date trans_date) desc inc exp s),
         success "Transaction added successfully!")
        (pass_store (added (Py.str_of_date trans_date) desc inc exp s)).
Proof.
  unfold submit_add_form; rewrite strip_blank, negb_involutive.
  destruct (forallb Py.isspace desc); [reflexivity|].
  unfold both_zero.
  destruct (PrimFloat.eqb inc 0 && PrimFloat.eqb exp 0); [reflexivity|].
  unfold bind; now rewrite added_run, pass_run.
Qed.

(** X4: the add form has three outcomes and no other.  A description made
    of whitespace only gives the description warning and an income and
    expenses both equal to zero give the amounts warning, in that order of
    precedence and with the table untouched; anything else is stored, the
    pass is run and the success message shown.  It never raises. *)
Theorem submit_add_form_outcomes (trans_date : Py.date) (desc : Py.str)
  (inc exp : float) (df : DataFrame) (s : store) :
  submit_add_form trans_date desc inc exp df s
  = (if forallb Py.isspace desc then
       Returned (df, warning "Please enter a description.") s
     else if PrimFloat.eqb inc 0 && PrimFloat.eqb exp 0 then
       Returned (df, warning
                       "Either Income or Expenses must be greater than 0.") s
     else
       Returned
         (pass_frame (added (Py.str_of_date trans_date) desc inc exp s),
          success "Transaction added successfully!")
         (pass_store (added (Py.str_of_date trans_date) desc inc exp s))) /\
  failed_with (submit_add_form trans_date desc inc exp df s) = None /\
  final_store (submit_add_form trans_date desc inc exp df s)
  = (if forallb Py.isspace desc
        || PrimFloat.eqb inc 0 && PrimFloat.eqb exp 0
     then s
     else pass_store (added (Py.str_of_date trans_date) desc inc exp s)).
Proof.
  split; [apply submit_add_form_eq|].
  rewrite submit_add_form_eq.
  destruct (forallb Py.isspace desc); simpl; [split; reflexivity|].
  destruct (PrimFloat.eqb inc 0 && PrimFloat.eqb exp 0);
    split; reflexivity.
Qed.

Lemma added_frame (d desc : Py.str) (inc exp : float) (s : store) :
  exists bal,
    table (added d desc inc exp s)
    = table s ++ [mkrow (next_id s) d desc inc exp bal] /\
    seq (added d desc inc exp s) = next_id s.
Proof. eexists; split; reflexivity. Qed.

Lemma wf_added (d desc : Py.str) (inc exp : float) (s : store) :
  wf s = true -> wf (added d desc inc exp s) = true.
Proof. apply wf_insert. Qed.

(** X5: an accepted submission, on a table with unique rowids, appends
    exactly one row: the rows stored before keep their id, date,
    description, income and expenses, in the same order; the new row has
    the ISO text of the date, the description and the amounts as given and
    a rowid no row had; afterwards the balances stored are the running
    totals of the stored sequence, which is the frame shown. *)
Theorem accepted_add_appends_one_row (trans_date : Py.date) (desc : Py.str)
  (inc exp : float) (df : DataFrame) (s : store) :
  wf s = true ->
  forallb Py.isspace desc = false ->
  PrimFloat.eqb inc 0 && PrimFloat.eqb exp 0 = false ->
  exists df' s',
    submit_add_form trans_date desc inc exp df s
      = Returned (df', success "Transaction added successfully!") s' /\
    map frame (table s')
      = map frame (table s)
        ++ [(next_id s, Py.str_of_date trans_date, desc, inc, exp)] /\
    has_id (next_id s) s = false /\
    seq s' = next_id s /\
    wf s' = true /\
    consistent s' /\
    select_all_ordered s' = df'.
Proof.
  intros Hwf Hd Ha.
  set (sa := added (Py.str_of_date trans_date) desc inc exp s).
  exists (pass_frame sa), (pass_store sa).
  assert (Wa : wf sa = true) by now apply wf_added.
  split; [now rewrite submit_add_form_eq, Hd, Ha|].
  split.
  { unfold pass_store; rewrite persist_frame; unfold sa, added, insert.
    simpl; now rewrite map_app. }
  split; [apply fresh_id_absent|].
  split; [unfold pass_store; now rewrite persist_seq|].
  split; [now rewrite wf_pass|].
  split; [now apply pass_consistent | now apply pass_select].
Qed.

Lemma accepted_add_appends_one_row_witness :
  wf three_sales = true /\
  forallb Py.isspace (Py.lit "Rent") = false /\
  PrimFloat.eqb 0 0 && PrimFloat.eqb 40 0 = false /\
  exists df' s',
    submit_add_form (Py.mkdate 2024 1 2) (Py.lit "Rent") 0 40 [] three_sales
      = Returned (df', success "Transaction added successfully!") s' /\
    map id df' = [1; 2; 4; 3]%Z /\
    seq s' = 4%Z.
Proof.
  split; [reflexivity|]; split; [reflexivity|]; split; [reflexivity|].
  destruct (accepted_add_appends_one_row (Py.mkdate 2024 1 2) (Py.lit "Rent")
              0 40 [] three_sales eq_refl eq_refl eq_refl)
    as (df' & s' & Hrun & _ & _ & Hseq & _ & _ & _).
  exists df', s'; split; [exact Hrun|]; split; [|exact Hseq].
  rewrite submit_add_form_eq in Hrun; vm_compute in Hrun.
  injection Hrun as <- _; reflexivity.
Defined.

End AddForm.

(* ------------------------------------------------------------------ *)
(** ** The edit form and the delete button *)

Section EditAndDelete.

Lemma updated_run (row_id : Z) (d desc : Py.str) (inc exp : float)
  (s : store) :
  update_transaction row_id d desc inc exp s
  = Returned tt (update d desc inc exp row_id s).
Proof. reflexivity. Qed.

Lemma deleted_run (row_id : Z) (s : store) :
  delete_transaction row_id s = Returned tt (delete row_id s).
Proof. reflexivity. Qed.

Lemma save_edit_form_eq (row_id : Z) (new_date : Py.date)
  (new_desc : Py.str) (inc exp : float) (df : DataFrame) (s : store) :
  save_edit_form row_id new_date new_desc inc exp df s
  = if df_empty df then Returned (df, None) s
    else if negb (in_frame row_id df) then Raised Py.IndexError s
    else if forallb Py.isspace new_desc then
      Returned (df, Some (warning "Please enter a description.")) s
    else if PrimFloat.eqb inc 0 && PrimFloat.eqb exp 0 then
      Returned
        (df, Some (warning
                     "Either Income or Expenses must be greater than 0.")) s
    else
      Returned
        (pass_frame (update (Py.str_of_date new_date) new_desc inc exp
                            row_id s),
         Some (success "Transaction updated successfully!"))
        (pass_store (update (Py.str_of_date new_date) new_desc inc exp
                            row_id s)).
Proof.
  unfold save_edit_form.
  destruct (df_empty df); [reflexivity|].
  destruct (in_frame row_id df) eqn:F; simpl negb; cbv iota.
  - destruct (row_data_present df row_id s F) as (r & Hr & _).
    unfold bind at 1; rewrite Hr.
    rewrite strip_blank, negb_involutive.
    destruct (forallb Py.isspace new_desc); [reflexivity|].
    unfold both_zero.
    destruct (PrimFloat.eqb inc 0 && PrimFloat.eqb exp 0); [reflexivity|].
    unfold bind; now rewrite updated_run, pass_run.
  - unfold bind; now rewrite (row_data_missing df row_id s F).
Qed.


(** X6: the outcomes of saving an edit.  With no rows on screen nothing
    happens and nothing is said; an id that is not in the frame raises
    [IndexError] before anything is written; then the two checks of the
    add form apply, in the same order and with the table untouched;
    otherwise the row is updated, the pass is run and the success message
    shown. *)
Theorem save_edit_form_outcomes (row_id : Z) (new_date : Py.date)
  (new_desc : Py.str) (inc exp : float) (df : DataFrame) (s : store) :
  save_edit_form row_id new_date new_desc inc exp df s
  = (if df_empty df then Returned (df, None) s
    else if negb (in_frame row_id df) then Raised Py.IndexError s
    else if forallb Py.isspace new_desc then
      Returned (df, Some (warning "Please enter a description.")) s
    else if PrimFloat.eqb inc 0 && PrimFloat.eqb exp 0 then
      Returned
        (df, Some (warning
                     "Either Income or Expenses must be greater than 0.")) s
    else
      Returned
        (pass_frame (update (Py.str_of_date new_date) new_desc inc exp
                            row_id s),
         Some (success "Transaction updated successfully!"))
        (pass_store (update (Py.str_of_date new_date) new_desc inc exp
                            row_id s))) /\
  failed_with (save_edit_form row_id new_date new_desc inc exp df s)
  = (if negb (df_empty df) && negb (in_frame row_id df)
     then Some Py.IndexError else None) /\
  final_store (save_edit_form row_id new_date new_desc inc exp df s)
  = (if df_empty df || negb (in_frame row_id df)
        || forallb Py.isspace new_desc
        || PrimFloat.eqb inc 0 && PrimFloat.eqb exp 0
     then s
     else pass_store (update (Py.str_of_date new_date) new_desc inc exp
                             row_id s)).
Proof.
  split; [apply save_edit_form_eq|].
  rewrite save_edit_form_eq.
  destruct (df_empty df); simpl; [split; reflexivity|].
  destruct (in_frame row_id df); simpl; [|split; reflexivity].
  destruct (forallb Py.isspace new_desc); simpl; [split; reflexivity|].
  destruct (PrimFloat.eqb inc 0 && PrimFloat.eqb exp 0); split; reflexivity.
Qed.

Lemma delete_button_eq (row_id : Z) (df : DataFrame) (s : store) :
  delete_button row_id df s
  = if df_empty df then Returned (df, None) s
    else if negb (in_frame row_id df) then Raised Py.IndexError s
    else
      Returned
        (pass_frame (delete row_id s),
         Some (success "Transaction deleted successfully!"))
        (pass_store (delete row_id s)).
Proof.
  unfold delete_button.
  destruct (df_empty df); [reflexivity|].
  destruct (in_frame row_id df) eqn:F; simpl negb; cbv iota.
  - destruct (row_data_present df row_id s F) as (r & Hr & _).
    unfold bind at 1; rewrite Hr.
    unfold bind; now rewrite deleted_run, pass_run.
  - unfold bind; now rewrite (row_data_missing df row_id s F).
Qed.


(** X7: the outcomes of the delete button.  With no rows on screen nothing
    happens; an id that is not in the frame raises [IndexError] before
    anything is written; otherwise the row is deleted, the pass is run and
    the success message shown.  Nothing is checked against the table
    itself. *)
Theorem delete_button_outcomes (row_id : Z) (df : DataFrame) (s : store) :
  delete_button row_id df s
  = (if df_empty df then Returned (df, None) s
    else if negb (in_frame row_id df) then Raised Py.IndexError s
    else
      Returned
        (pass_frame (delete row_id s),
         Some (success "Transaction deleted successfully!"))
        (pass_store (delete row_id s))) /\
  failed_with (delete_button row_id df s)
  = (if negb (df_empty df) && negb (in_frame row_id df)
     then Some Py.IndexError else None) /\
  final_store (delete_button row_id df s)
  = (if negb (df_empty df) && in_frame row_id df
     then pass_store (delete row_id s) else s).
Proof.
  split; [apply delete_button_eq|].
  rewrite delete_button_eq.
  destruct (df_empty df); simpl; [split; reflexivity|].
  destruct (in_frame row_id df); simpl; split; reflexivity.
Qed.

Lemma update_frame (d desc : Py.str) (inc exp : float) (row_id : Z)
  (s : store) :
  map frame (table (update d desc inc exp row_id s))
  = map (fun r => if (id r =? row_id)%Z then (id r, d, desc, inc, exp)
                  else frame r) (table s).
Proof.
  unfold update; simpl; rewrite map_map.
  apply map_ext; intros r; now destruct (id r =? row_id)%Z.
Qed.

(** X8: an accepted edit, on a table with unique rowids, rewrites one row
    and only that one: the row with the chosen id gets the ISO text of the
    new date, the new description and the new amounts and keeps its id;
    every other row keeps its id, date, description, income and expenses;
    no row is added or removed and the rowid counter stays; afterwards the
    balances stored are the running totals of the stored sequence
    (fetched again, so in the order of the new dates), which is the frame
    returned. *)
Theorem accepted_edit_rewrites_one_row (row_id : Z) (new_date : Py.date)
  (new_desc : Py.str) (inc exp : float) (df : DataFrame) (s : store) :
  wf s = true ->
  in_frame row_id df = true ->
  forallb Py.isspace new_desc = false ->
  PrimFloat.eqb inc 0 && PrimFloat.eqb exp 0 = false ->
  exists df' s',
    save_edit_form row_id new_date new_desc inc exp df s
      = Returned (df', Some (success "Transaction updated successfully!"))
                 s' /\
    map frame (table s')
      = map (fun r => if (id r =? row_id)%Z
                      then (id r, Py.str_of_date new_date, new_desc, inc, exp)
                      else frame r) (table s) /\
    seq s' = seq s /\
    wf s' = true /\
    consistent s' /\
    select_all_ordered s' = df'.
Proof.
  intros Hwf Hin Hd Ha.
  set (su := update (Py.str_of_date new_date) new_desc inc exp row_id s).
  exists (pass_frame su), (pass_store su).
  assert (Wu : wf su = true) by (unfold su; now rewrite wf_update).
  split.
  { rewrite save_edit_form_eq, Hin, Hd, Ha; simpl.
    destruct df; [discriminate Hin|reflexivity]. }
  split; [unfold pass_store; rewrite persist_frame; apply update_frame|].
  split; [unfold pass_store; now rewrite persist_seq|].
  split; [now rewrite wf_pass|].
  split; [now apply pass_consistent | now apply pass_select].
Qed.

Lemma accepted_edit_rewrites_one_row_witness :
  wf three_sales = true /\
  in_frame 1 (select_all_ordered three_sales) = true /\
  exists df' s',
    save_edit_form 1 (Py.mkdate 2024 1 5) (Py.lit "Late sale") 1 0
      (select_all_ordered three_sales) three_sales
      = Returned (df', Some (success "Transaction updated successfully!"))
                 s' /\
    map id df' = [2; 3; 1]%Z /\
    map balance df' = [0.2; 0.5; 1.5]%float /\
    map id (table s') = [1; 2; 3]%Z.
Proof.
  split; [reflexivity|]; split; [reflexivity|].
  destruct (accepted_edit_rewrites_one_row 1 (Py.mkdate 2024 1 5)
              (Py.lit "Late sale") 1 0 (select_all_ordered three_sales)
              three_sales eq_refl eq_refl eq_refl eq_refl)
    as (df' & s' & Hrun & _).
  exists df', s'; split; [exact Hrun|].
  rewrite save_edit_form_eq in Hrun; vm_compute in Hrun.
  injection Hrun as <- <-; repeat split; reflexivity.
Defined.

Lemma filter_one_out (row_id : Z) (t : list row) :
  NoDup (map id t) ->
  existsb (fun r => (id r =? row_id)%Z) t = true ->
  S (List.length (filter (fun r => negb (id r =? row_id)%Z) t))
  = List.length t.
Proof.
  induction t as [|x t IH]; simpl; [discriminate|].
  intros Hn H; inversion Hn as [|? ? Hx Hn']; subst.
  destruct (Z.eqb_spec (id x) row_id) as [E|_]; simpl.
  - rewrite (filter_none_dropped (fun r => (id r =? row_id)%Z));
      [reflexivity|].
    apply Bool.not_true_iff_false; intros C.
    apply existsb_exists in C; destruct C as (y & Hy & Ey).
    apply Z.eqb_eq in Ey; apply Hx; rewrite E, <- Ey; now apply in_map.
  - f_equal; auto.
Qed.

(** X9: a delete that goes through, on a table with unique rowids,
    removes the row with the chosen id and nothing else: the other rows
    keep their id, date, description, income and expenses and their order;
    the id is gone from the table; when it was there, the table has
    exactly one row less; the rowid counter stays; afterwards the balances
    stored are the running totals of the stored sequence, which is the
    frame returned. *)
Theorem delete_button_removes_one_row (row_id : Z) (df : DataFrame)
  (s : store) :
  wf s = true ->
  in_frame row_id df = true ->
  exists df' s',
    delete_button row_id df s
      = Returned (df', Some (success "Transaction deleted successfully!"))
                 s' /\
    map frame (table s')
      = map frame (filter (fun r => negb (id r =? row_id)%Z) (table s)) /\
    has_id row_id s' = false /\
    (if has_id row_id s
     then S (List.length (table s')) = List.length (table s)
     else List.length (table s') = List.length (table s)) /\
    seq s' = seq s /\
    wf s' = true /\
    consistent s' /\
    select_all_ordered s' = df'.
Proof.
  intros Hwf Hin.
  set (sd := delete row_id s).
  exists (pass_frame sd), (pass_store sd).
  assert (Wd : wf sd = true) by now apply wf_delete.
  assert (F : map frame (table (pass_store sd)) = map frame (table sd))
    by (unfold pass_store; apply persist_frame).
  split.
  { rewrite delete_button_eq, Hin; simpl.
    destruct df; [discriminate Hin|reflexivity]. }
  split; [exact F|].
  split.
  { rewrite (has_id_same_ids row_id (pass_store sd) sd)
      by now apply frame_ids.
    apply has_id_after_delete. }
  split.
  { apply (f_equal (@List.length _)) in F; rewrite !length_map in F.
    rewrite F; unfold sd, delete; simpl.
    destruct (has_id row_id s) eqn:Hs.
    - apply filter_one_out; [|exact Hs].
      now apply (ids_ascending_nodup 0).
    - now rewrite (filter_none_dropped (fun r => (id r =? row_id)%Z)). }
  split; [unfold pass_store; now rewrite persist_seq|].
  split; [now rewrite wf_pass|].
  split; [now apply pass_consistent | now apply pass_select].
Qed.

Lemma delete_button_removes_one_row_witness :
  wf three_sales = true /\
  in_frame 2 (select_all_ordered three_sales) = true /\
  exists df' s',
    delete_button 2 (select_all_ordered three_sales) three_sales
      = Returned (df', Some (success "Transaction deleted successfully!"))
                 s' /\
    S (List.length (table s')) = List.length (table three_sales) /\
    has_id 2 s' = false.
Proof.
  split; [reflexivity|]; split; [reflexivity|].
  destruct (delete_button_removes_one_row 2 (select_all_ordered three_sales)
              three_sales eq_refl eq_refl)
    as (df' & s' & Hrun & _ & Hgone & Hlen & _).
  exists df', s'; split; [exact Hrun|]; split; [exact Hlen|exact Hgone].
Defined.

End EditAndDelete.

(* ------------------------------------------------------------------ *)
(** ** What every form action keeps *)

Section Invariants.

Lemma max_id_same_ids (l l' : list row) :
  map id l = map id l' -> max_id l = max_id l'.
Proof.
  revert l'; induction l as [|r l IH]; intros [|r' l']; simpl;
    try discriminate; [reflexivity|].
  intros H; injection H as -> H; f_equal; auto.
Qed.

Lemma max_id_filter (p : row -> bool) (l : list row) :
  (max_id (filter p l) <= max_id l)%Z.
Proof.
  induction l as [|r l IH]; simpl; [lia|].
  destruct (p r); simpl; fold (max_id l); fold (max_id (filter p l)); lia.
Qed.

Lemma max_id_snoc (l : list row) (r : row) :
  (max_id (l ++ [r]) <= Z.max (max_id l) (Z.max (id r) 0))%Z.
Proof.
  induction l as [|x l IH]; simpl; [lia|].
  fold (max_id (l ++ [r])); fold (max_id l); lia.
Qed.

Lemma ids_issued_insert (d desc : Py.str) (inc exp bal : float) (s : store) :
  ids_issued (insert d desc inc exp bal s) = true.
Proof.
  unfold ids_issued, insert; simpl; apply Z.leb_le.
  pose proof (max_id_snoc (table s)
                (mkrow (Z.max (seq s) (max_id (table s)) + 1) d desc inc exp
                       bal)) as H.
  pose proof (max_id_nonneg (table s)); simpl in H; lia.
Qed.

Lemma ids_issued_update (d desc : Py.str) (inc exp : float) (row_id : Z)
  (s : store) :
  ids_issued (update d desc inc exp row_id s) = ids_issued s.
Proof.
  unfold ids_issued, update; simpl; f_equal.
  apply max_id_same_ids; rewrite map_map.
  apply map_ext; intros r; now destruct (id r =? row_id)%Z.
Qed.

Lemma ids_issued_delete (row_id : Z) (s : store) :
  ids_issued s = true -> ids_issued (delete row_id s) = true.
Proof.
  unfold ids_issued, delete; simpl; intros H.
  apply Z.leb_le in H; apply Z.leb_le.
  pose proof (max_id_filter (fun r => negb (id r =? row_id)%Z) (table s)).
  lia.
Qed.

Lemma ids_issued_pass (s : store) : ids_issued (pass_store s) = ids_issued s.
Proof.
  unfold ids_issued, pass_store; rewrite persist_seq; f_equal.
  apply max_id_same_ids, frame_ids, persist_frame.
Qed.

Lemma submit_add_form_store (trans_date : Py.date) (desc : Py.str)
  (inc exp : float) (df : DataFrame) (s : store) :
  final_store (submit_add_form trans_date desc inc exp df s) = s \/
  final_store (submit_add_form trans_date desc inc exp df s)
  = pass_store (added (Py.str_of_date trans_date) desc inc exp s).
Proof.
  rewrite submit_add_form_eq.
  destruct (forallb Py.isspace desc); [now left|].
  destruct (PrimFloat.eqb inc 0 && PrimFloat.eqb exp 0); [now left|now right].
Qed.

Lemma save_edit_form_store (row_id : Z) (new_date : Py.date)
  (new_desc : Py.str) (inc exp : float) (df : DataFrame) (s : store) :
  final_store (save_edit_form row_id new_date new_desc inc exp df s) = s \/
  final_store (save_edit_form row_id new_date new_desc inc exp df s)
  = pass_store (update (Py.str_of_date new_date) new_desc inc exp row_id s).
Proof.
  rewrite save_edit_form_eq.
  destruct (df_empty df); [now left|].
  destruct (negb (in_frame row_id df)); [now left|].
  destruct (forallb Py.isspace new_desc); [now left|].
  destruct (PrimFloat.eqb inc 0 && PrimFloat.eqb exp 0); [now left|now right].
Qed.

Lemma delete_button_store (row_id : Z) (df : DataFrame) (s : store) :
  final_store (delete_button row_id df s) = s \/
  final_store (delete_button row_id df s) = pass_store (delete row_id s).
Proof.
  rewrite delete_button_eq.
  destruct (df_empty df); [now left|].
  destruct (negb (in_frame row_id df)); [now left|now right].
Qed.

(** X10: the three form actions keep the key invariants.  Whatever is
    typed or chosen, and whether the action is accepted, turned away or
    raises, a table whose rowids are unique and ascending, none above the
    AUTOINCREMENT counter, is left that way. *)
Theorem form_actions_keep_the_keys (s : store) (trans_date : Py.date)
  (desc : Py.str) (inc exp : float) (row_id : Z) (df : DataFrame) :
  wf s = true -> ids_issued s = true ->
  (wf (final_store (submit_add_form trans_date desc inc exp df s)) = true /\
   ids_issued (final_store (submit_add_form trans_date desc inc exp df s))
     = true) /\
  (wf (final_store (save_edit_form row_id trans_date desc inc exp df s))
     = true /\
   ids_issued
     (final_store (save_edit_form row_id trans_date desc inc exp df s))
     = true) /\
  (wf (final_store (delete_button row_id df s)) = true /\
   ids_issued (final_store (delete_button row_id df s)) = true).
Proof.
  intros Hwf Hid; repeat split.
  - destruct (submit_add_form_store trans_date desc inc exp df s) as [-> | ->];
      [exact Hwf|].
    rewrite wf_pass; now apply wf_added.
  - destruct (submit_add_form_store trans_date desc inc exp df s) as [-> | ->];
      [exact Hid|].
    rewrite ids_issued_pass; apply ids_issued_insert.
  - destruct (save_edit_form_store row_id trans_date desc inc exp df s)
      as [-> | ->]; [exact Hwf|].
    now rewrite wf_pass, wf_update.
  - destruct (save_edit_form_store row_id trans_date desc inc exp df s)
      as [-> | ->]; [exact Hid|].
    now rewrite ids_issued_pass, ids_issued_update.
  - destruct (delete_button_store row_id df s) as [-> | ->]; [exact Hwf|].
    rewrite wf_pass; now apply wf_delete.
  - destruct (delete_button_store row_id df s) as [-> | ->]; [exact Hid|].
    rewrite ids_issued_pass; now apply ids_issued_delete.
Qed.

Lemma form_actions_keep_the_keys_witness :
  wf three_sales = true /\ ids_issued three_sales = true /\
  wf (final_store (delete_button 2 (select_all_ordered three_sales)
                     three_sales)) = true /\
  ids_issued
    (final_store (save_edit_form 9 (Py.mkdate 2024 2 1) (Py.lit "x") 1 0
                    (select_all_ordered three_sales) three_sales)) = true.
Proof.
  split; [vm_compute; reflexivity|]; split; [vm_compute; reflexivity|].
  pose proof (form_actions_keep_the_keys three_sales (Py.mkdate 2024 2 1)
                (Py.lit "x") 1 0 2 (select_all_ordered three_sales)
                eq_refl eq_refl) as (_ & _ & Hd & _).
  pose proof (form_actions_keep_the_keys three_sales (Py.mkdate 2024 2 1)
                (Py.lit "x") 1 0 9 (select_all_ordered three_sales)
                eq_refl eq_refl) as (_ & (_ & He) & _).
  split; [exact Hd|exact He].
Defined.

(** X11: the three form actions keep the balances current.  On a table
    with unique rowids whose stored balances are the running totals of the
    stored sequence, they still are after any of the actions, whether it
    was accepted, turned away or raised. *)
Theorem form_actions_keep_balances_current (s : store)
  (trans_date : Py.date) (desc : Py.str) (inc exp : float) (row_id : Z)
  (df : DataFrame) :
  wf s = true -> consistent s ->
  consistent (final_store (submit_add_form trans_date desc inc exp df s)) /\
  consistent
    (final_store (save_edit_form row_id trans_date desc inc exp df s)) /\
  consistent (final_store (delete_button row_id df s)).
Proof.
  intros Hwf Hc; repeat split.
  - destruct (submit_add_form_store trans_date desc inc exp df s) as [-> | ->];
      [exact Hc|].
    now apply pass_consistent, wf_added.
  - destruct (save_edit_form_store row_id trans_date desc inc exp df s)
      as [-> | ->]; [exact Hc|].
    apply pass_consistent; now rewrite wf_update.
  - destruct (delete_button_store row_id df s) as [-> | ->]; [exact Hc|].
    now apply pass_consistent, wf_delete.
Qed.

Lemma form_actions_keep_balances_current_witness :
  wf three_sales = true /\ consistent three_sales /\
  consistent (final_store (delete_button 1 (select_all_ordered three_sales)
                             three_sales)).
Proof.
  assert (C : consistent three_sales) by (vm_compute; reflexivity).
  split; [vm_compute; reflexivity|]; split; [exact C|].
  apply (form_actions_keep_balances_current three_sales (Py.mkdate 2024 2 1)
           [] 0 0 1 (select_all_ordered three_sales) eq_refl C).
Defined.

(** X12: a rowid is never given twice.  On a table with no rowid above the
    AUTOINCREMENT counter, a delete followed by an insert returns, and the
    row inserted gets the counter plus one, which is above every rowid the
    table held before the delete, the deleted one included. *)
Theorem deleted_ids_are_not_reused (row_id : Z) (d desc : Py.str)
  (inc exp : float) (s : store) :
  ids_issued s = true ->
  exists bal,
    (delete_transaction row_id ;; add_transaction d desc inc exp) s
    = Returned tt
        {| table := filter (fun r => negb (id r =? row_id)%Z) (table s)
                    ++ [mkrow (seq s + 1) d desc inc exp bal];
           seq := (seq s + 1)%Z |} /\
    Forall (fun r => (id r < seq s + 1)%Z) (table s).
Proof.
  intros H; unfold bind; rewrite deleted_run, add_transaction_run.
  unfold ids_issued in H; apply Z.leb_le in H.
  pose proof (max_id_filter (fun r => negb (id r =? row_id)%Z) (table s))
    as Hf.
  eexists; split.
  - unfold insert, delete; simpl.
    replace (Z.max (seq s)
               (max_id (filter (fun r => negb (id r =? row_id)%Z) (table s))))
      with (seq s) by lia.
    reflexivity.
  - eapply Forall_impl; [|apply max_id_bound]; simpl; intros; lia.
Qed.

Lemma deleted_ids_are_not_reused_witness :
  ids_issued three_sales = true /\
  exists bal,
    (delete_transaction 3 ;;
     add_transaction (Py.lit "2024-01-09") (Py.lit "Again") 1 0) three_sales
    = Returned tt
        {| table := filter (fun r => negb (id r =? 3)%Z) (table three_sales)
                    ++ [mkrow 4 (Py.lit "2024-01-09") (Py.lit "Again") 1 0
                              bal];
           seq := 4 |}.
Proof.
  split; [vm_compute; reflexivity|].
  destruct (deleted_ids_are_not_reused 3 (Py.lit "2024-01-09")
              (Py.lit "Again") 1 0 three_sales eq_refl) as (bal & H & _).
  exists bal; exact H.
Defined.

End Invariants.

(* ------------------------------------------------------------------ *)
(** ** Adding the latest transaction, and taking an addition back *)

Section AddAndUndo.

Lemma insert_by_date_before_last (x r : row) (l : list row) :
  text_leb (trans_date x) (trans_date r) = true ->
  insert_by_date x (l ++ [r]) = insert_by_date x l ++ [r].
Proof.
  intros H; induction l as [|y l IH]; simpl.
  - now rewrite H.
  - destruct (text_leb (trans_date x) (trans_date y)); [reflexivity|].
    now rewrite IH.
Qed.

Lemma order_by_latest (t : list row) (r : row) :
  Forall (fun x => text_leb (trans_date x) (trans_date r) = true) t ->
  order_by_trans_date (t ++ [r]) = order_by_trans_date t ++ [r].
Proof.
  induction 1 as [|x t Hx Ht IH]; simpl; [reflexivity|].
  now rewrite IH, insert_by_date_before_last.
Qed.

Lemma recalc_rows_app (b : float) (l1 l2 : DataFrame) :
  recalc_rows b (l1 ++ l2)
  = recalc_rows b l1 ++ recalc_rows (balance_after b l1) l2.
Proof.
  revert b; induction l1 as [|r l1 IH]; intros b; simpl; [reflexivity|].
  now rewrite IH.
Qed.

Lemma store_ext (s s' : store) :
  table s = table s' -> seq s = seq s' -> s = s'.
Proof. destruct s, s'; simpl; congruence. Qed.

Lemma fetched_incl (s : store) : incl (table s) (select_all_ordered s).
Proof.
  intros r Hr.
  apply (Permutation_in _ (Permutation_sym (order_by_perm (table s)))), Hr.
Qed.

(** X13: adding a transaction dated no earlier than anything stored, to a
    table with unique rowids and current balances, changes no stored row
    at all: the table afterwards is the old table with one row appended,
    and that row's balance is the running total of the stored sequence
    plus [income - expenses]; the provisional balance written at insert
    time is overwritten by it.  The frame shown is the old sequence
    followed by the new row. *)
Theorem adding_the_latest_row (trans_date : Py.date) (desc : Py.str)
  (inc exp : float) (df : DataFrame) (s : store) :
  wf s = true -> consistent s ->
  forallb Py.isspace desc = false ->
  PrimFloat.eqb inc 0 && PrimFloat.eqb exp 0 = false ->
  Forall (fun x => text_leb (Sql.trans_date x) (Py.str_of_date trans_date)
                   = true) (table s) ->
  submit_add_form trans_date desc inc exp df s
  = Returned
      (select_all_ordered s
         ++ [mkrow (next_id s) (Py.str_of_date trans_date) desc inc exp
                   (balance_after 0 (select_all_ordered s) + (inc - exp))],
       success "Transaction added successfully!")
      {| table :=
           table s
             ++ [mkrow (next_id s) (Py.str_of_date trans_date) desc inc exp
                       (balance_after 0 (select_all_ordered s)
                        + (inc - exp))];
         seq := next_id s |}.
Proof.
  intros Hwf Hc Hd Ha Hlate.
  rewrite submit_add_form_eq, Hd, Ha.
  set (sa := added (Py.str_of_date trans_date) desc inc exp s).
  set (new := mkrow (next_id s) (Py.str_of_date trans_date) desc inc exp
                    (balance_after 0 (select_all_ordered s) + (inc - exp))).
  destruct (added_frame (Py.str_of_date trans_date) desc inc exp s)
    as (bal & Ht & Hs); fold sa in Ht, Hs.
  set (n0 := mkrow (next_id s) (Py.str_of_date trans_date) desc inc exp bal)
    in Ht.
  assert (Wa : wf sa = true) by now apply wf_added.
  assert (Sa : select_all_ordered sa = select_all_ordered s ++ [n0]).
  { unfold select_all_ordered; rewrite Ht; now apply order_by_latest. }
  assert (Fa : pass_frame sa = select_all_ordered s ++ [new]).
  { unfold pass_frame; rewrite Sa, recalc_rows_app.
    fold (pass_frame s); now rewrite (consistent_fixed s Hc). }
  assert (Nd : NoDup (map id (pass_frame sa))).
  { unfold pass_frame.
    rewrite (frame_ids _ _ (recalc_rows_frame 0 (select_all_ordered sa))).
    now apply fetched_ids_nodup. }
  f_equal; [now rewrite Fa|].
  apply store_ext; simpl;
    [|unfold pass_store; now rewrite persist_seq].
  unfold pass_store; rewrite persist_table, Ht, map_app; f_equal.
  - apply persist_rows_fixed; [exact Nd|].
    rewrite Fa; intros r Hr; apply in_or_app; left.
    now apply fetched_incl.
  - simpl; f_equal.
    change (id n0) with (id new).
    rewrite (last_balance_for_unique new); [reflexivity|exact Nd|].
    rewrite Fa; apply in_or_app; right; now left.
Qed.

Lemma adding_the_latest_row_witness :
  wf three_sales = true /\ consistent three_sales /\
  exists df' s',
    submit_add_form (Py.mkdate 2024 1 3) (Py.lit "Fee") 0 0.25 []
      three_sales
    = Returned (df', success "Transaction added successfully!") s' /\
    map id df' = [1; 2; 3; 4]%Z /\
    firstn 3 (table s') = table three_sales.
Proof.
  assert (C : consistent three_sales) by (vm_compute; reflexivity).
  assert (L : Forall (fun x => text_leb (Sql.trans_date x)
                                 (Py.str_of_date (Py.mkdate 2024 1 3)) = true)
                (table three_sales))
    by (vm_compute; repeat constructor).
  split; [vm_compute; reflexivity|]; split; [exact C|].
  pose proof (adding_the_latest_row (Py.mkdate 2024 1 3) (Py.lit "Fee") 0
                0.25 [] three_sales eq_refl C eq_refl eq_refl L) as H.
  eexists; eexists; split; [exact H|].
  split; vm_compute; reflexivity.
Defined.

Lemma filter_id_map (h : row -> row) (row_id : Z) (l : list row) :
  (forall r, id (h r) = id r) ->
  filter (fun r => negb (id r =? row_id)%Z) (map h l)
  = map h (filter (fun r => negb (id r =? row_id)%Z) l).
Proof.
  intros Hh; induction l as [|r l IH]; simpl; [reflexivity|].
  rewrite Hh; destruct (id r =? row_id)%Z; simpl; now rewrite IH.
Qed.

Lemma in_frame_of_ids (row_id : Z) (l : list row) :
  In row_id (map id l) -> in_frame row_id l = true.
Proof.
  intros H; apply in_map_iff in H; destruct H as (r & E & Hr).
  apply existsb_exists; exists r; split; [exact Hr|now apply Z.eqb_eq].
Qed.

(** X14: an addition can be taken back.  On a table with unique rowids
    and current balances, an accepted add followed by deleting the row
    just added leaves every stored row exactly as it was before the add,
    balances included, and shows the sequence as it was; only the
    AUTOINCREMENT counter has moved on. *)
Theorem add_then_delete_restores_the_table (trans_date : Py.date)
  (desc : Py.str) (inc exp : float) (df : DataFrame) (s : store) :
  wf s = true -> consistent s ->
  forallb Py.isspace desc = false ->
  PrimFloat.eqb inc 0 && PrimFloat.eqb exp 0 = false ->
  delete_button (next_id s)
    (shown (submit_add_form trans_date desc inc exp df s))
    (final_store (submit_add_form trans_date desc inc exp df s))
  = Returned
      (select_all_ordered s,
       Some (success "Transaction deleted successfully!"))
      {| table := table s; seq := next_id s |}.
Proof.
  intros Hwf Hc Hd Ha.
  rewrite submit_add_form_eq, Hd, Ha; simpl shown; simpl final_store.
  set (sa := added (Py.str_of_date trans_date) desc inc exp s).
  destruct (added_frame (Py.str_of_date trans_date) desc inc exp s)
    as (bal & Ht & Hs); fold sa in Ht, Hs.
  set (n0 := mkrow (next_id s) (Py.str_of_date trans_date) desc inc exp bal)
    in Ht.
  set (h1 := fun r => with_balance r
                        (last_balance_for (id r) (pass_frame sa)
                                          (balance r))).
  assert (T1 : table (pass_store sa) = map h1 (table s) ++ [h1 n0]).
  { unfold pass_store; now rewrite persist_table, Ht, map_app. }
  assert (Fresh : has_id (next_id s) s = false) by apply fresh_id_absent.
  assert (Td : table (delete (next_id s) (pass_store sa)) = map h1 (table s)).
  { unfold delete; simpl; rewrite T1, filter_app; simpl.
    rewrite Z.eqb_refl; simpl; rewrite app_nil_r.
    rewrite (filter_id_map h1) by reflexivity.
    now rewrite (filter_none_dropped (fun r => (id r =? next_id s)%Z)). }
  assert (Sd : select_all_ordered (delete (next_id s) (pass_store sa))
               = map h1 (select_all_ordered s)).
  { unfold select_all_ordered; rewrite Td; now apply order_by_map. }
  assert (Fd : pass_frame (delete (next_id s) (pass_store sa))
               = select_all_ordered s).
  { unfold pass_frame; rewrite Sd.
    rewrite (recalc_rows_same_frame 0 _ (select_all_ordered s))
      by (rewrite map_map; now apply map_ext).
    apply (consistent_fixed s Hc). }
  assert (In1 : in_frame (next_id s) (pass_frame sa) = true).
  { apply in_frame_of_ids; unfold pass_frame.
    rewrite (frame_ids _ _ (recalc_rows_frame 0 (select_all_ordered sa))).
    apply (Permutation_in (l := map id (table sa)));
      [apply Permutation_map, Permutation_sym, order_by_perm|].
    rewrite Ht, map_app; apply in_or_app; right; now left. }
  rewrite delete_button_eq, In1; simpl negb.
  destruct (pass_frame sa) as [|first rest] eqn:E; [discriminate In1|].
  simpl df_empty.
  cbv iota; rewrite Fd; f_equal.
  apply store_ext; cbn [table seq].
  - unfold pass_store at 1; rewrite persist_table, Fd, Td, map_map.
    rewrite <- (map_id (table s)) at 2.
    apply map_ext_in; intros r Hr.
    replace (id (h1 r)) with (id r) by reflexivity.
    rewrite (last_balance_for_unique r (select_all_ordered s) _
               (fetched_ids_nodup s Hwf) (fetched_incl s r Hr)).
    destruct r; reflexivity.
  - unfold pass_store at 1; rewrite persist_seq.
    unfold delete; cbn [seq].
    unfold pass_store; rewrite persist_seq; exact Hs.
Qed.

Lemma add_then_delete_restores_the_table_witness :
  wf three_sales = true /\ consistent three_sales /\
  table
    (final_store
       (delete_button 4
          (shown (submit_add_form (Py.mkdate 2024 1 2) (Py.lit "Rent") 0 40
                    [] three_sales))
          (final_store
             (submit_add_form (Py.mkdate 2024 1 2) (Py.lit "Rent") 0 40 []
                three_sales))))
  = table three_sales.
Proof.
  assert (C : consistent three_sales) by (vm_compute; reflexivity).
  split; [vm_compute; reflexivity|]; split; [exact C|].
  change 4%Z with (next_id three_sales).
  now rewrite (add_then_delete_restores_the_table (Py.mkdate 2024 1 2)
                 (Py.lit "Rent") 0 40 [] three_sales eq_refl C eq_refl
                 eq_refl).
Defined.

End AddAndUndo.

(* ------------------------------------------------------------------ *)
(** ** One run of the script *)

Section ScriptRun.

Lemma summary_balance_run (df : DataFrame) (s : store) :
  summary_balance df s = Returned (last (map balance df) 0%float) s.
Proof.
  unfold summary_balance.
  destruct df as [|r df]; [reflexivity|].
  cbn [df_empty negb]; unfold iloc_last.
  assert (L : rev (map balance (r :: df))
              = last (map balance (r :: df)) 0%float
                  :: rev (removelast (map balance (r :: df)))).
  { rewrite (app_removelast_last 0%float (l := map balance (r :: df))) at 1
      by discriminate.
    now rewrite rev_app_distr. }
  rewrite L; reflexivity.
Qed.

Lemma last_running_total (b d : float) (df : DataFrame) :
  last (b :: running_from b df) d = balance_after b df.
Proof.
  revert b d; induction df as [|r df IH]; intros b d; [reflexivity|].
  change (running_from b (r :: df))
    with ((b + (income r - expenses r))%float
            :: running_from (b + (income r - expenses r)) df).
  change (balance_after b (r :: df))
    with (balance_after (b + (income r - expenses r)) df).
  rewrite <- (IH _ d); reflexivity.
Qed.

(** X15: the "Current Balance" of the summary panel.  Computing it never
    raises or writes; on an empty table it is 0.0; and when the stored
    balances are current it is the running total over every stored
    transaction. *)
Theorem summary_balance_is_the_running_total (s : store) :
  consistent s ->
  summary_balance (select_all_ordered s) s
  = Returned (balance_after 0 (select_all_ordered s)) s /\
  summary_balance [] s = Returned 0%float s /\
  forall df, failed_with (summary_balance df s) = None /\
             final_store (summary_balance df s) = s.
Proof.
  intros Hc; split; [|split; [reflexivity|]].
  - rewrite summary_balance_run; f_equal.
    unfold consistent in Hc; rewrite Hc.
    destruct (select_all_ordered s) as [|r df]; [reflexivity|].
    apply (last_running_total (0 + (income r - expenses r)) 0 df).
  - intros df; now rewrite summary_balance_run.
Qed.

Lemma summary_balance_is_the_running_total_witness :
  consistent three_sales /\
  summary_balance (select_all_ordered three_sales) three_sales
  = Returned 0.60000000000000009%float three_sales.
Proof.
  assert (C : consistent three_sales) by (vm_compute; reflexivity).
  split; [exact C|].
  destruct (summary_balance_is_the_running_total three_sales C) as [H _].
  rewrite H; f_equal.
Defined.

Lemma selected_row_id_pure (x : Py.str) (s : store) :
  (exists z, selected_row_id x s = Returned z s) \/
  (exists e, selected_row_id x s = Raised e s).
Proof.
  unfold selected_row_id, bind, first_piece, py_int, ret, raise.
  destruct (Txt.split 58 x) as [|p ps]; [right; eauto|].
  destruct (Txt.int_of p); [left|right]; eauto.
Qed.

Lemma row_data_pure (df : DataFrame) (row_id : Z) (s : store) :
  (exists r, row_data df row_id s = Returned r s) \/
  (exists e, row_data df row_id s = Raised e s).
Proof.
  unfold row_data, ret, raise.
  destruct (filter _ df); [right|left]; eauto.
Qed.

(** X16: a run in which no button is pressed writes nothing: whatever the
    fields hold and whatever the selector returns, even something that
    cannot be read as an id and makes the run raise, the table is left
    exactly as it was. *)
Theorem idle_run_writes_nothing (float_str : float -> Py.str) (w : widgets)
  (s : store) :
  submit w = false -> save_edit w = false -> delete_clicked w = false ->
  final_store (run_script float_str w s) = s.
Proof.
  intros H1 H2 H3; unfold run_script, bind at 1 2 3, fetch_transactions.
  rewrite summary_balance_run, H1; unfold ret at 1; cbn [fst snd].
  destruct (df_empty (select_all_ordered s)); [reflexivity|].
  cbn [negb]; unfold bind at 1.
  destruct (selected_row_id_pure (selected w) s) as [[z ->] | [e ->]];
    [|reflexivity].
  unfold bind at 1.
  destruct (row_data_pure (select_all_ordered s) z s) as [[r ->] | [e ->]];
    [|reflexivity].
  rewrite H2, H3; reflexivity.
Qed.

Lemma idle_run_writes_nothing_witness :
  final_store
    (run_script (fun _ => Py.lit "0.1")
       (mkwidgets (Py.mkdate 2024 1 1) [] 0 0 false (Py.lit "not an entry")
                  (Py.mkdate 2024 1 1) [] 0 0 false false)
       three_sales)
  = three_sales /\
  failed_with
    (run_script (fun _ => Py.lit "0.1")
       (mkwidgets (Py.mkdate 2024 1 1) [] 0 0 false (Py.lit "not an entry")
                  (Py.mkdate 2024 1 1) [] 0 0 false false)
       three_sales)
  = Some Py.ValueError.
Proof.
  split; [|vm_compute; reflexivity].
  apply (idle_run_writes_nothing (fun _ => Py.lit "0.1")
           (mkwidgets (Py.mkdate 2024 1 1) [] 0 0 false
                      (Py.lit "not an entry")
                      (Py.mkdate 2024 1 1) [] 0 0 false false)
           three_sales eq_refl eq_refl eq_refl).
Defined.

(** X17: the run that handles a delete shows the rows from before it.  On
    a table with unique rowids, when the selector holds the entry of a
    stored row and only the delete button is pressed, the run returns; the
    row is gone from the table and the balances stored are current; but
    the history table, the download and the selector of that page are
    those of the sequence fetched at the top of the run, with the deleted
    row still in it, and the current balance is the one from before. *)
Theorem delete_run_shows_the_old_rows (float_str : float -> Py.str)
  (w : widgets) (s : store) (r : row) :
  wf s = true ->
  In r (select_all_ordered s) ->
  selected w = option_label float_str r ->
  submit w = false -> save_edit w = false -> delete_clicked w = true ->
  run_script float_str w s
  = Returned
      (mkpage (last (map balance (select_all_ordered s)) 0%float)
              [success "Transaction deleted successfully!"]
              (Some (select_all_ordered s))
              (Some (export_to_excel (select_all_ordered s)))
              (selector_options float_str (select_all_ordered s)))
      (pass_store (delete (id r) s)) /\
  has_id (id r) (pass_store (delete (id r) s)) = false /\
  consistent (pass_store (delete (id r) s)).
Proof.
  intros Hwf Hin Hsel H1 H2 H3; split; [|split].
  - unfold run_script, bind at 1 2 3, fetch_transactions.
    rewrite summary_balance_run, H1; unfold ret at 1; cbn [fst snd].
    destruct (select_all_ordered s) as [|r0 df0] eqn:E; [contradiction|].
    cbn [df_empty negb]; unfold bind at 1.
    rewrite Hsel, label_round_trip; unfold bind at 1.
    rewrite <- E in *.
    rewrite (row_data_found _ r s (fetched_ids_nodup s Hwf) Hin).
    rewrite H2, H3; unfold bind at 1, ret at 1.
    unfold bind at 1, delete_block, bind.
    rewrite deleted_run, pass_run; unfold ret; cbn [fst snd notice_list app].
    reflexivity.
  - rewrite (has_id_same_ids (id r) (pass_store (delete (id r) s))
               (delete (id r) s))
      by (unfold pass_store; apply frame_ids, persist_frame).
    apply has_id_after_delete.
  - now apply pass_consistent, wf_delete.
Qed.

Lemma delete_run_shows_the_old_rows_witness :
  wf three_sales = true /\
  exists p s',
    run_script (fun _ => Py.lit "0.2")
      (mkwidgets (Py.mkdate 2024 1 1) [] 0 0 false
         (option_label (fun _ => Py.lit "0.2")
            (mkrow 2 (Py.lit "2024-01-02") (Py.lit "Sale") 0.2 0
                   0.30000000000000004))
         (Py.mkdate 2024 1 1) [] 0 0 false true)
      three_sales = Returned p s' /\
    option_map (map id) (history p) = Some [1; 2; 3]%Z /\
    map id (table s') = [1; 3]%Z.
Proof.
  split; [vm_compute; reflexivity|].
  assert (Hin : In (mkrow 2 (Py.lit "2024-01-02") (Py.lit "Sale") 0.2 0
                          0.30000000000000004)
                   (select_all_ordered three_sales))
    by (vm_compute; auto).
  destruct (delete_run_shows_the_old_rows (fun _ => Py.lit "0.2")
              (mkwidgets (Py.mkdate 2024 1 1) [] 0 0 false
                 (option_label (fun _ => Py.lit "0.2")
                    (mkrow 2 (Py.lit "2024-01-02") (Py.lit "Sale") 0.2 0
                           0.30000000000000004))
                 (Py.mkdate 2024 1 1) [] 0 0 false true)
              three_sales _ eq_refl Hin eq_refl eq_refl eq_refl eq_refl)
    as (H & _).
  eexists; eexists; split; [exact H|].
  split; vm_compute; reflexivity.
Defined.

End ScriptRun.

(* ------------------------------------------------------------------ *)
(** ** The run that handles an add, stale frames, and dates as texts *)

Section MoreRuns.

(** X18: the run that handles an accepted add shows the new row but the
    old balance.  On a table with unique rowids, when only the add form is
    submitted with a description and amounts that pass the checks and the
    selector holds the entry of a row of the refreshed frame, the run
    returns; the history table, the download and the selector hold the
    refreshed sequence with the new row in it; the current balance of the
    summary panel is still the last balance stored before the add. *)
Theorem add_run_shows_the_old_balance (float_str : float -> Py.str)
  (w : widgets) (s : store) (r : row) :
  wf s = true ->
  submit w = true -> save_edit w = false -> delete_clicked w = false ->
  forallb Py.isspace (add_desc w) = false ->
  PrimFloat.eqb (add_income w) 0 && PrimFloat.eqb (add_expenses w) 0
    = false ->
  In r (pass_frame (added (Py.str_of_date (add_date w)) (add_desc w)
                          (add_income w) (add_expenses w) s)) ->
  selected w = option_label float_str r ->
  run_script float_str w s
  = Returned
      (mkpage
         (last (map balance (select_all_ordered s)) 0%float)
         [success "Transaction added successfully!"]
         (Some (pass_frame (added (Py.str_of_date (add_date w)) (add_desc w)
                                  (add_income w) (add_expenses w) s)))
         (Some (export_to_excel
                  (pass_frame (added (Py.str_of_date (add_date w))
                                     (add_desc w) (add_income w)
                                     (add_expenses w) s))))
         (selector_options float_str
            (pass_frame (added (Py.str_of_date (add_date w)) (add_desc w)
                               (add_income w) (add_expenses w) s))))
      (pass_store (added (Py.str_of_date (add_date w)) (add_desc w)
                         (add_income w) (add_expenses w) s)) /\
  List.length (pass_frame (added (Py.str_of_date (add_date w)) (add_desc w)
                                 (add_income w) (add_expenses w) s))
  = S (List.length (select_all_ordered s)).
Proof.
  intros Hwf H1 H2 H3 Hd Ha Hin Hsel.
  set (sa := added (Py.str_of_date (add_date w)) (add_desc w)
                   (add_income w) (add_expenses w) s) in *.
  assert (Wa : wf sa = true) by now apply wf_added.
  assert (Nd : NoDup (map id (pass_frame sa))).
  { unfold pass_frame.
    rewrite (frame_ids _ _ (recalc_rows_frame 0 (select_all_ordered sa))).
    now apply fetched_ids_nodup. }
  split.
  - unfold run_script, bind at 1 2 3, fetch_transactions.
    rewrite summary_balance_run, H1; unfold bind at 1.
    rewrite submit_add_form_eq, Hd, Ha; fold sa.
    unfold ret at 1; cbn [fst snd].
    destruct (pass_frame sa) as [|r0 df0] eqn:E; [contradiction|].
    cbn [df_empty negb]; unfold bind at 1.
    rewrite Hsel, label_round_trip; unfold bind at 1.
    rewrite (row_data_found _ r _ Nd Hin).
    rewrite H2, H3; unfold bind, ret; cbn [fst snd notice_list app].
    reflexivity.
  - unfold pass_frame.
    pose proof (recalc_rows_frame 0 (select_all_ordered sa)) as F.
    apply (f_equal (@List.length _)) in F; rewrite !length_map in F.
    rewrite F; unfold select_all_ordered.
    rewrite (Permutation_length (order_by_perm (table sa))).
    rewrite (Permutation_length (order_by_perm (table s))).
    unfold sa, added, insert; simpl; rewrite length_app; simpl; lia.
Qed.

Lemma add_run_shows_the_old_balance_witness :
  wf three_sales = true /\
  exists p s',
    run_script (fun _ => Py.lit "0.1")
      (mkwidgets (Py.mkdate 2024 1 4) (Py.lit "Fee") 0 0.25 true
         (option_label (fun _ => Py.lit "0.1")
            (mkrow 1 (Py.lit "2024-01-01") (Py.lit "Sale") 0.1 0 0.1))
         (Py.mkdate 2024 1 1) [] 0 0 false false)
      three_sales = Returned p s' /\
    current_balance p = 0.60000000000000009%float /\
    option_map (map balance) (history p)
      = Some [0.1; 0.30000000000000004; 0.60000000000000009;
              0.35000000000000009]%float.
Proof.
  split; [vm_compute; reflexivity|].
  assert (Hin : In (mkrow 1 (Py.lit "2024-01-01") (Py.lit "Sale") 0.1 0 0.1)
                   (pass_frame (added (Py.str_of_date (Py.mkdate 2024 1 4))
                                      (Py.lit "Fee") 0 0.25 three_sales)))
    by (vm_compute; auto).
  destruct (add_run_shows_the_old_balance (fun _ => Py.lit "0.1")
              (mkwidgets (Py.mkdate 2024 1 4) (Py.lit "Fee") 0 0.25 true
                 (option_label (fun _ => Py.lit "0.1")
                    (mkrow 1 (Py.lit "2024-01-01") (Py.lit "Sale") 0.1 0 0.1))
                 (Py.mkdate 2024 1 1) [] 0 0 false false)
              three_sales _ eq_refl eq_refl eq_refl eq_refl eq_refl eq_refl
              Hin eq_refl) as (H & _).
  eexists; eexists; split; [exact H|].
  split; vm_compute; reflexivity.
Defined.

Lemma in_frame_ids (row_id : Z) (l l' : list row) :
  map id l = map id l' -> in_frame row_id l = in_frame row_id l'.
Proof.
  unfold in_frame; revert l'.
  induction l as [|r l IH]; intros [|r' l']; simpl; try discriminate;
    [reflexivity|].
  intros H; injection H as -> H; f_equal; auto.
Qed.

Lemma not_in_frame (row_id : Z) (l : list row) :
  in_frame row_id l = false -> ~ In row_id (map id l).
Proof.
  intros H Hin; apply in_frame_of_ids in Hin; congruence.
Qed.

(** X19: what the pass writes when run on an arbitrary frame, stale or
    not.  A stored row whose id occurs in the frame gets the running total
    of the last frame row carrying that id; every stored row whose id does
    not occur in the frame is left exactly as it was; rows of the frame
    with no stored counterpart write nothing; and on the empty frame the
    pass returns the empty frame and changes nothing. *)
Theorem recalc_balance_on_any_frame (df : DataFrame) (s : store) :
  table (final_store (recalc_balance df s))
  = map (fun r =>
           if in_frame (id r) df
           then with_balance r
                  (last_balance_for (id r) (recalc_rows 0 df) (balance r))
           else r) (table s) /\
  seq (final_store (recalc_balance df s)) = seq s /\
  recalc_balance [] s = Returned [] s.
Proof.
  rewrite recalc_balance_run; cbn [final_store].
  split; [|split; [apply persist_seq|now destruct s]].
  rewrite persist_table; apply map_ext; intros r.
  rewrite (in_frame_ids (id r) df (recalc_rows 0 df))
    by (symmetry; apply frame_ids, recalc_rows_frame).
  destruct (in_frame (id r) (recalc_rows 0 df)) eqn:E; [reflexivity|].
  rewrite last_balance_for_absent by now apply not_in_frame.
  apply with_balance_same.
Qed.

Lemma date_compare_eq (a b : Py.date) :
  Py.date_compare a b = Eq -> a = b.
Proof.
  unfold Py.date_compare; destruct a as [y m d], b as [y' m' d']; simpl.
  destruct (Z.compare_spec y y'); try discriminate.
  destruct (Z.compare_spec m m'); try discriminate.
  destruct (Z.compare_spec d d'); try discriminate.
  intros _; congruence.
Qed.

(** X20: dates stored as texts.  For dates a [datetime.date] can hold, the
    texts written by [str] compare, under the collation of the table, the
    way the dates compare on the calendar, and two different dates never
    get the same text. *)
Theorem iso_texts_sort_as_dates (a b : Py.date) :
  Py.date_ok a = true -> Py.date_ok b = true ->
  text_compare (Py.str_of_date a) (Py.str_of_date b) = Py.date_compare a b /\
  text_leb (Py.str_of_date a) (Py.str_of_date b)
  = negb (match Py.date_compare a b with Gt => true | _ => false end) /\
  (Py.str_of_date a = Py.str_of_date b -> a = b).
Proof.
  intros Ha Hb; pose proof (iso_text_compare a b Ha Hb) as H.
  split; [exact H|]; split.
  - unfold text_leb; rewrite H; now destruct (Py.date_compare a b).
  - intros E; apply date_compare_eq.
    rewrite <- H, E; apply text_compare_refl.
Qed.

Lemma iso_texts_sort_as_dates_witness :
  Py.date_ok (Py.mkdate 999 12 31) = true /\
  Py.date_ok (Py.mkdate 1000 1 1) = true /\
  Py.str_of_date (Py.mkdate 999 12 31) = Py.lit "0999-12-31" /\
  text_compare (Py.str_of_date (Py.mkdate 999 12 31))
               (Py.str_of_date (Py.mkdate 1000 1 1)) = Lt.
Proof.
  split; [reflexivity|]; split; [reflexivity|]; split; [reflexivity|].
  destruct (iso_texts_sort_as_dates (Py.mkdate 999 12 31)
              (Py.mkdate 1000 1 1) eq_refl eq_refl) as (H & _).
  rewrite H; reflexivity.
Defined.

End MoreRuns.
